(** * tools/translate.py: YAML purl rules to Apache RedirectMatch directives

    A shallow embedding of [clean_source] and [process_rule] and the
    properties of the rule interpreter.

    Strings are Rocq strings read as sequences of code points below 256;
    the [str] methods the script calls are modelled on that range.  A rule
    is a dict from field names to strings, as the rule schema has it. *)

From Stdlib Require Import NArith Ascii String List Bool Lia.
From stdpp Require Import base option gmap strings.

Local Open Scope string_scope.
Set Warnings "-clear-no-such-hyp".

(** ** Python string primitives *)

Module Py.

Definition in_range (lo hi n : N) : bool := ((lo <=? n) && (n <=? hi))%N.

(** [str.isspace] on one code point: TAB..CR, FS..US, space, NEL, NBSP. *)
Definition isspace (c : ascii) : bool :=
  let n := N_of_ascii c in
  in_range 9 13 n || in_range 28 32 n || (n =? 133)%N || (n =? 160)%N.

(** [str.lower] on one code point: A..Z and the Latin-1 capitals
    (all of 192..222 but the multiplication sign 215) move up by 32. *)
Definition lower_char (c : ascii) : ascii :=
  let n := N_of_ascii c in
  if in_range 65 90 n || (in_range 192 222 n && negb (n =? 215)%N)
  then ascii_of_N (n + 32) else c.

Fixpoint lower (s : string) : string :=
  match s with
  | EmptyString => EmptyString
  | String c s' => String (lower_char c) (lower s')
  end.

Fixpoint lstrip (s : string) : string :=
  match s with
  | EmptyString => EmptyString
  | String c s' => if isspace c then lstrip s' else s
  end.

Fixpoint rstrip (s : string) : string :=
  match s with
  | EmptyString => EmptyString
  | String c s' =>
      match rstrip s' with
      | EmptyString => if isspace c then EmptyString else String c EmptyString
      | r => String c r
      end
  end.

(** [s.strip()] *)
Definition strip (s : string) : string := rstrip (lstrip s).

(** [s.startswith(p)] *)
Definition startswith (s p : string) : bool := String.prefix p s.

(** [s.replace(old, new)]: every occurrence of [old], leftmost first and
    without overlap.  [skip] counts the characters of a match that are
    still to be dropped. *)
Fixpoint replace_from (old new : string) (skip : nat) (s : string) : string :=
  match s with
  | EmptyString => EmptyString
  | String c s' =>
      match skip with
      | S k => replace_from old new k s'
      | O =>
          if String.prefix old s
          then new +:+ replace_from old new (String.length old - 1) s'
          else String c (replace_from old new 0 s')
      end
  end.

Fixpoint after_each (new s : string) : string :=
  match s with
  | EmptyString => EmptyString
  | String c s' => String c (new +:+ after_each new s')
  end.

Definition replace (s old new : string) : string :=
  if (old =? "")%string then new +:+ after_each new s
  else replace_from old new 0 s.

(** [re.escape] of the Python 3 releases the script was written for
    (3.3 to 3.6): every character outside [A-Za-z0-9_] gets a backslash,
    NUL becomes backslash 000.  This is why [clean_source] has to take
    the backslash off the slashes again. *)
Definition alphanum (c : ascii) : bool :=
  let n := N_of_ascii c in
  in_range 48 57 n || in_range 65 90 n || in_range 97 122 n || (n =? 95)%N.

Definition escape_char (c : ascii) : string :=
  if alphanum c then String c EmptyString
  else if (N_of_ascii c =? 0)%N then "\000"
  else String "\" (String c EmptyString).

Fixpoint re_escape (s : string) : string :=
  match s with
  | EmptyString => EmptyString
  | String c s' => escape_char c +:+ re_escape s'
  end.

End Py.

(** ** Rules, exceptions and results *)

(** What [process_rule] is handed: a YAML map, or some other YAML node. *)
Inductive yaml :=
  | YMap (fields : gmap string string)
  | YScalar (s : string).

(** The exceptions of [process_rule].  Every one is a [ValueError] in the
    script; they are told apart by the [raise] that builds them.  [KeyError]
    is what [rule[k]] raises on a missing key. *)
Inductive exn :=
  | NotAMap             (* Not a YAML map *)
  | MissingType         (* Rule does not have a valid type *)
  | MultipleTypes       (* Rule has multiple types *)
  | ReplacementError    (* term_browser rules do not use / Missing replacement *)
  | RegexWithoutLevel   (* regex rule must have a level *)
  | UnknownBrowser      (* Unknown term_browser *)
  | NamespaceMismatch   (* Bad path / Bad prefix for IDSPACE *)
  | InvalidLevel        (* Level must be project or top *)
  | TopLevelPollution   (* Invalid top-level rule for IDSPACE *)
  | InvalidStatus       (* Invalid status *)
  | KeyError (k : string).

Inductive comp (A : Type) :=
  | Ok (a : A)
  | Raise (e : exn).
Arguments Ok {A} a.
Arguments Raise {A} e.

#[global] Instance comp_ret : MRet comp := fun A a => Ok a.
#[global] Instance comp_bind : MBind comp := fun A B f c =>
  match c with
  | Ok a => f a
  | Raise e => Raise e
  end.

(** [k in rule] and [rule[k]] *)
Definition contains (k : string) (rule : gmap string string) : bool :=
  match rule !! k with Some _ => true | None => false end.

Definition getitem (rule : gmap string string) (k : string) : comp string :=
  match rule !! k with Some v => Ok v | None => Raise (KeyError k) end.

(** The local variables of [process_rule] that are assigned more than once. *)
Record locals := Locals {
  path : string;
  prefix : string;
  source : string;
  replacement : string;
  rule_level : string;
  status : string
}.

Definition set_rule_level (v : string) (st : locals) : locals :=
  Locals (path st) (prefix st) (source st) (replacement st) v (status st).

Definition set_status (v : string) (st : locals) : locals :=
  Locals (path st) (prefix st) (source st) (replacement st) (rule_level st) v.

Definition dquote : string := String "034"%char EmptyString.

(** ** The script *)

Definition clean_source (s : string) : string :=
  let r := Py.strip s in
  let r := Py.re_escape r in
  let r := Py.replace r "\/" "/" in
  r.

(** [re.escape] changed in Python 3.7: only the special characters get a
    backslash, and the forward slash is not one of them.  [clean_source37]
    is [clean_source] run on those releases. *)
Module Py37.
Definition special : list ascii :=
  list_ascii_of_string "()[]{}?*+-|^$\.&~# "
  ++ ["009"; "010"; "013"; "011"; "012"]%char.

Definition escape_char (c : ascii) : string :=
  if existsb (Ascii.eqb c) special then String "\" (String c EmptyString)
  else String c EmptyString.

Fixpoint re_escape (s : string) : string :=
  match s with
  | EmptyString => EmptyString
  | String c s' => escape_char c +:+ re_escape s'
  end.

Definition clean_source37 (s : string) : string :=
  let r := Py.strip s in
  let r := re_escape r in
  let r := Py.replace r "\/" "/" in
  r.

Fixpoint has_char (a : ascii) (s : string) : bool :=
  match s with
  | EmptyString => false
  | String c s' => Ascii.eqb a c || has_char a s'
  end.
End Py37.

Definition base_url_of (idspace : string) : string :=
  if (idspace =? "OBO")%string then "/obo" else "/obo/" +:+ Py.lower idspace.

Definition initial_locals : locals := Locals "" "" "" "" "top" "temporary".

(** Lines 140-156: the type of the rule. *)
Definition rule_types (rule : gmap string string) : list string :=
  (if contains "path" rule then ["path"] else []) ++
  (if contains "prefix" rule then ["prefix"] else []) ++
  (if contains "regex" rule then ["regex"] else []) ++
  (if contains "term_browser" rule then ["term_browser"] else []).

Definition determine_type (rule : gmap string string) : comp string :=
  match rule_types rule with
  | [] => Raise MissingType
  | [rule_type] => Ok rule_type
  | _ :: _ :: _ => Raise MultipleTypes
  end.

(** Lines 158-164: the replacement field. *)
Definition validate_replacement (rule_type : string)
    (rule : gmap string string) : comp unit :=
  if (rule_type =? "term_browser")%string then
    if contains "replacement" rule then Raise ReplacementError else Ok tt
  else
    if negb (contains "replacement" rule) then Raise ReplacementError
    else
      r ← getitem rule "replacement";
      if (Py.strip r =? "")%string then Raise ReplacementError else Ok tt.

(** Lines 166-187: source and replacement by type. *)
Definition handle_rule (idspace rule_type : string)
    (rule : gmap string string) (st : locals) : comp locals :=
  if (rule_type =? "path")%string then
    p ← getitem rule "path";
    r ← getitem rule "replacement";
    Ok (Locals p (prefix st) ("(?i)^" +:+ clean_source p +:+ "$") r
          (rule_level st) (status st))
  else if (rule_type =? "prefix")%string then
    p ← getitem rule "prefix";
    r ← getitem rule "replacement";
    Ok (Locals (path st) p ("(?i)^" +:+ clean_source p +:+ "(.*)$")
          (r +:+ "$1") (rule_level st) (status st))
  else if (rule_type =? "regex")%string then
    if negb (contains "level" rule) then Raise RegexWithoutLevel
    else
      s ← getitem rule "regex";
      r ← getitem rule "replacement";
      Ok (Locals (path st) (prefix st) s r (rule_level st) (status st))
  else if (rule_type =? "term_browser")%string then
    b ← getitem rule "term_browser";
    if (Py.lower b =? "ontobee")%string then
      Ok (Locals (path st) (prefix st)
            ("(?i)^/obo/" +:+ idspace +:+ "_(\d+)$")
            ("http://www.ontobee.org/browser/rdf.php?o=" +:+ idspace +:+
             "&iri=http://purl.obolibrary.org/obo/" +:+ idspace +:+ "_$1")
            "top" "see other")
    else Raise UnknownBrowser
  else Ok st.

(** Lines 189-193: the rule is in the right IDSPACE. *)
Definition check_idspace (base_url rule_type : string) (st : locals) : comp unit :=
  if (rule_type =? "path")%string
     && negb (Py.startswith (Py.lower (path st)) base_url)
  then Raise NamespaceMismatch
  else if (rule_type =? "prefix")%string
     && negb (Py.startswith (Py.lower (prefix st)) base_url)
  then Raise NamespaceMismatch
  else Ok tt.

(** Lines 195-206: project or top. *)
Definition valid_level (l : string) : bool :=
  (l =? "project")%string || (l =? "top")%string.

Definition determine_level (base_url rule_type : string)
    (rule : gmap string string) (st : locals) : comp locals :=
  if contains "level" rule then
    l ← getitem rule "level";
    if valid_level (Py.lower l) then Ok (set_rule_level (Py.lower l) st)
    else Raise InvalidLevel
  else if Py.startswith (Py.lower (path st)) (base_url +:+ "/") then
    Ok (set_rule_level "project" st)
  else if Py.startswith (Py.lower (prefix st)) (base_url +:+ "/") then
    Ok (set_rule_level "project" st)
  else if (rule_type =? "term_browser")%string then
    Ok (set_rule_level "top" st)
  else Ok st.

(** Lines 222-231: what a top-level rule may be. *)
Definition top_allowed (base_url idspace rule_type : string) (st : locals) : bool :=
  (rule_type =? "regex")%string
  || (rule_type =? "term_browser")%string
  || (path st =? base_url)%string
  || (path st =? base_url +:+ ".owl")%string
  || (path st =? base_url +:+ ".obo")%string
  || (prefix st =? "/obo/" +:+ idspace +:+ "_")%string.

(** Lines 233-238: the status field. *)
Definition valid_status (s : string) : bool :=
  (s =? "permanent")%string || (s =? "temporary")%string
  || (s =? "see other")%string.

Definition validate_status (rule : gmap string string) (st : locals) : comp locals :=
  if contains "status" rule then
    s ← getitem rule "status";
    if valid_status s then Ok (set_status s st) else Raise InvalidStatus
  else Ok st.

(** Lines 240-244: Apache's names. *)
Definition apache_status (status : string) : string :=
  if (status =? "temporary")%string then "temp"
  else if (status =? "see other")%string then "seeother"
  else status.

(** Line 247. *)
Definition directive (status source replacement : string) : string :=
  "RedirectMatch " +:+ status +:+ " " +:+ dquote +:+ source +:+ dquote
  +:+ " " +:+ dquote +:+ replacement +:+ dquote.

(** Lines 140-193 depend on the idspace and the rule only: the type of the
    rule and its locals once the rule has been checked. *)
Definition checked (idspace : string) (rule : gmap string string)
    : comp (string * locals) :=
  let base_url := base_url_of idspace in
  rule_type ← determine_type rule;
  _ ← validate_replacement rule_type rule;
  st ← handle_rule idspace rule_type rule initial_locals;
  _ ← check_idspace base_url rule_type st;
  Ok (rule_type, st).

(** Lines 140-206: the same once the level is settled. *)
Definition resolve (idspace : string) (rule : gmap string string)
    : comp (string * locals) :=
  '(rule_type, st) ← checked idspace rule;
  st ← determine_level (base_url_of idspace) rule_type rule st;
  Ok (rule_type, st).

(** Lines 208-247: filter by processing level, then emit. *)
Definition emit (processing_level idspace : string)
    (rule : gmap string string) (rule_type : string) (st : locals)
    : comp (option string) :=
  let base_url := base_url_of idspace in
  if (processing_level =? "project")%string && (rule_level st =? "top")%string
  then Ok None
  else if (processing_level =? "top")%string && (rule_level st =? "project")%string
  then Ok None
  else if (processing_level =? "top")%string
          && negb (top_allowed base_url idspace rule_type st)
  then Raise TopLevelPollution
  else
    st ← validate_status rule st;
    Ok (Some (directive (apache_status (status st)) (source st) (replacement st))).

Definition process_rule (processing_level idspace : string) (rule : yaml)
    : comp (option string) :=
  match rule with
  | YScalar _ => Raise NotAMap
  | YMap rule =>
      '(rule_type, st) ← resolve idspace rule;
      emit processing_level idspace rule rule_type st
  end.


(** ** The rules that pass the checks

    [checked_rule idspace rule t st]: the rule of type [t] passes the checks
    of lines 158-193 and leaves the locals [st]. *)

Inductive checked_rule (idspace : string) (rule : gmap string string)
    : string → locals → Prop :=
  | checked_is_path p r :
      rule !! "path" = Some p →
      rule !! "replacement" = Some r →
      Py.strip r ≠ "" →
      Py.startswith (Py.lower p) (base_url_of idspace) = true →
      checked_rule idspace rule "path"
        (Locals p "" ("(?i)^" +:+ clean_source p +:+ "$") r "top" "temporary")
  | checked_is_prefix p r :
      rule !! "prefix" = Some p →
      rule !! "replacement" = Some r →
      Py.strip r ≠ "" →
      Py.startswith (Py.lower p) (base_url_of idspace) = true →
      checked_rule idspace rule "prefix"
        (Locals "" p ("(?i)^" +:+ clean_source p +:+ "(.*)$") (r +:+ "$1")
           "top" "temporary")
  | checked_is_regex s r :
      rule !! "regex" = Some s →
      rule !! "replacement" = Some r →
      Py.strip r ≠ "" →
      is_Some (rule !! "level") →
      checked_rule idspace rule "regex" (Locals "" "" s r "top" "temporary")
  | checked_is_term_browser b :
      rule !! "term_browser" = Some b →
      Py.lower b = "ontobee" →
      rule !! "replacement" = None →
      checked_rule idspace rule "term_browser"
        (Locals "" "" ("(?i)^/obo/" +:+ idspace +:+ "_(\d+)$")
           ("http://www.ontobee.org/browser/rdf.php?o=" +:+ idspace +:+
            "&iri=http://purl.obolibrary.org/obo/" +:+ idspace +:+ "_$1")
           "top" "see other").

(** The four keys that give a rule its type, and those that are in a rule. *)
Definition type_fields : list string := ["path"; "prefix"; "regex"; "term_browser"].

Definition type_fields_of (rule : gmap string string) : list string :=
  List.filter (λ k, contains k rule) type_fields.

(** ** The level as the specification orders it

    An explicit level first, then the inference from the path or prefix,
    then the default of the variant, then the fallback. *)

Definition level_by_order (idspace rule_type : string)
    (rule : gmap string string) : string :=
  let under_base v := Py.startswith (Py.lower v) (base_url_of idspace +:+ "/") in
  match rule !! "level" with
  | Some l => Py.lower l
  | None =>
      if under_base (default "" (rule !! "path"))
         || under_base (default "" (rule !! "prefix"))
      then "project"
      else if (rule_type =? "term_browser")%string then "top"
      else "top"
  end.

(** ** The unit tests of the script *)

(** [with pytest.raises(ValueError)] *)
Definition raises_ValueError (c : comp (option string)) : bool :=
  match c with
  | Raise (KeyError _) => false
  | Raise _ => true
  | Ok _ => false
  end.

(** [assert(... == None)] *)
Definition is_None (c : comp (option string)) : bool :=
  match c with
  | Ok None => true
  | _ => false
  end.

Module Tests.
Definition missing_type : gmap string string :=
  {[ "replacement" := "foo" ]}.
Definition multiple_types : gmap string string :=
  {[ "path" := "foo"; "prefix" := "foo" ]}.
Definition term_browser_replacement : gmap string string :=
  {[ "term_browser" := "ontobee"; "replacement" := "foo" ]}.
Definition regex_without_level : gmap string string :=
  {[ "regex" := "foo"; "replacement" := "foo" ]}.
Definition invalid_term_browser : gmap string string :=
  {[ "term_browser" := "foo" ]}.
Definition idspace_crosstalk : gmap string string :=
  {[ "path" := "/obo/chebi/"; "replacement" := "foo" ]}.
Definition level_crosstalk_top : gmap string string :=
  {[ "path" := "/obo/obi"; "replacement" := "foo" ]}.
Definition level_crosstalk_project : gmap string string :=
  {[ "path" := "/obo/obi/"; "replacement" := "foo" ]}.
Definition top_level_pollution : gmap string string :=
  {[ "path" := "/obo/obi_core.owl"; "replacement" := "foo" ]}.
Definition invalid_level : gmap string string :=
  {[ "level" := "bar"; "path" := "foo"; "replacement" := "foo" ]}.

Definition test_missing_type : bool :=
  raises_ValueError (process_rule "project" "OBI" (YMap missing_type)).
Definition test_multiple_types : bool :=
  raises_ValueError (process_rule "project" "OBI" (YMap multiple_types)).
Definition test_term_browser_replacement : bool :=
  raises_ValueError (process_rule "top" "OBI" (YMap term_browser_replacement)).
Definition test_regex_without_level : bool :=
  raises_ValueError (process_rule "top" "OBI" (YMap regex_without_level)).
Definition test_invalid_term_browser : bool :=
  raises_ValueError (process_rule "top" "OBI" (YMap invalid_term_browser)).
Definition test_idspace_crosstalk : bool :=
  raises_ValueError (process_rule "project" "OBI" (YMap idspace_crosstalk)).
Definition test_level_crosstalk : bool :=
  is_None (process_rule "project" "OBI" (YMap level_crosstalk_top))
  && is_None (process_rule "top" "OBI" (YMap level_crosstalk_project)).
Definition test_top_level_pollution : bool :=
  raises_ValueError (process_rule "top" "OBI" (YMap top_level_pollution)).
Definition test_invalid_level : bool :=
  raises_ValueError (process_rule "project" "OBI" (YMap invalid_level)).
End Tests.

(** ** The shapes allowed at top level, on the fields of the rule *)

Definition allowed_at_top (idspace rule_type : string)
    (rule : gmap string string) : Prop :=
  let base_url := base_url_of idspace in
  rule_type = "regex"
  ∨ rule_type = "term_browser"
  ∨ rule !! "path" = Some base_url
  ∨ rule !! "path" = Some (base_url +:+ ".owl")
  ∨ rule !! "path" = Some (base_url +:+ ".obo")
  ∨ rule !! "prefix" = Some ("/obo/" +:+ idspace +:+ "_").

(** ** The escaping as the specification words it

    Every character of the trimmed string is escaped as [re.escape] escapes
    it, but a forward slash, which stays as it is. *)

Definition escape_but_slash (c : ascii) : string :=
  if Ascii.eqb c "/" then "/" else Py.escape_char c.

Fixpoint escaped_except_slashes (s : string) : string :=
  match s with
  | EmptyString => EmptyString
  | String c s' => escape_but_slash c +:+ escaped_except_slashes s'
  end.

(** The special characters of a Python regular expression. *)
Definition metachars : list ascii :=
  list_ascii_of_string ".^$*+?{}[]\|()".

(** [f] holds of every character of [s]. *)
Fixpoint string_forall (f : ascii → bool) (s : string) : bool :=
  match s with
  | EmptyString => true
  | String c s' => f c && string_forall f s'
  end.

(** ** The driver

    [main] without its command line and files: the mode argument, the name
    of the YAML file and the loaded document come in, what is written to the
    .htaccess file and the exception that ends the run, if any, come out.
    The document is a YAML map; paths are POSIX paths. *)

Module OsPath.
(** What stands before and after the last [c] of [s], as [s.rfind(c)]
    finds it. *)
Fixpoint rsplit (c : ascii) (s : string) : option (string * string) :=
  match s with
  | EmptyString => None
  | String a s' =>
      match rsplit c s' with
      | Some (h, t) => Some (String a h, t)
      | None => if Ascii.eqb a c then Some (EmptyString, s') else None
      end
  end.

(** [os.path.basename]: what follows the last slash. *)
Definition basename (p : string) : string :=
  match rsplit "/" p with
  | Some (_, t) => t
  | None => p
  end.

Fixpoint all_dots (s : string) : bool :=
  match s with
  | EmptyString => true
  | String c s' => Ascii.eqb c "." && all_dots s'
  end.

(** [os.path.splitext]: the extension starts at the last dot of the last
    component, unless only dots stand before it there. *)
Definition splitext (p : string) : string * string :=
  let '(head, tail) :=
    match rsplit "/" p with
    | Some (h, t) => (h +:+ "/", t)
    | None => (EmptyString, p)
    end in
  match rsplit "." tail with
  | Some (stem, ext) =>
      if all_dots stem then (p, EmptyString)
      else (head +:+ stem, "." +:+ ext)
  | None => (p, EmptyString)
  end.
End OsPath.

Definition nl : string := String "010"%char EmptyString.

Definition project_template (name : string) : string :=
  "# DO NOT EDIT THIS FILE!" +:+ nl +:+
  "# Automatically generated from " +:+ dquote +:+ name +:+ dquote +:+ "." +:+ nl +:+
  "# Edit that source file then regenerate this file." +:+ nl +:+ nl.

Definition top_template (idspace : string) : string :=
  "# Top-level rules for " +:+ idspace +:+ nl.

(** A value of the document: a list of rules, or anything else. *)
Inductive node :=
  | NList (rules : list yaml)
  | NOther (s : string).

(** The exceptions of [main]: its own two, and those of [process_rule]. *)
Inductive main_exn :=
  | NoRulesFound        (* No purl_rules found *)
  | InvalidMode         (* Processing mode must be project or top *)
  | RuleError (e : exn).

(** [if result:] *)
Definition truthy (result : option string) : bool :=
  match result with
  | None => false
  | Some d => negb (d =? "")%string
  end.

(** Lines 100-103: the loop over the rules, on what has been written. *)
Fixpoint write_rules (mode idspace : string) (rules : list yaml)
    (written : string) : string * option main_exn :=
  match rules with
  | [] => (written, None)
  | rule :: rules' =>
      match process_rule mode idspace rule with
      | Raise e => (written, Some (RuleError e))
      | Ok result =>
          write_rules mode idspace rules'
            (if truthy result then written +:+ default "" result +:+ nl
             else written)
      end
  end.

Definition idspace_of (yaml_file_name : string) : string :=
  let yaml_file_base_name := OsPath.basename yaml_file_name in
  fst (OsPath.splitext yaml_file_base_name).

Definition main (mode_arg yaml_file_name : string)
    (document : gmap string node) : string * option main_exn :=
  let mode := Py.lower mode_arg in
  let idspace := idspace_of yaml_file_name in
  match document !! "purl_rules" with
  | Some (NList rules) =>
      if (mode =? "project")%string then
        write_rules mode idspace rules (project_template yaml_file_name)
      else if (mode =? "top")%string then
        match write_rules mode idspace rules (top_template idspace) with
        | (written, None) => (written +:+ nl, None)
        | (written, Some e) => (written, Some e)
        end
      else (EmptyString, Some InvalidMode)
  | _ => (EmptyString, Some NoRulesFound)
  end.

(** The directives of the rules that a mode does not suppress, in the order
    of the rules, and the lines they make. *)
Definition emitted (mode idspace : string) (rules : list yaml) : list string :=
  omap (λ rule, match process_rule mode idspace rule with
                | Ok (Some d) => Some d
                | _ => None
                end) rules.

Fixpoint lines (ds : list string) : string :=
  match ds with
  | [] => EmptyString
  | d :: ds' => d +:+ nl +:+ lines ds'
  end.

(** [process_rule] returns, with a directive or with None. *)
Definition returns (mode idspace : string) (rule : yaml) : Prop :=
  ∃ result, process_rule mode idspace rule = Ok result.

(** The fields that [process_rule] reads. *)
Definition known_fields : list string :=
  ["path"; "prefix"; "regex"; "term_browser"; "replacement"; "level"; "status"].

(** ** The script on either [re.escape]

    The script does not say which Python 3 runs it, and [re.escape] is one
    function up to release 3.6 ([Py.re_escape]) and another from release 3.7
    on ([Py37.re_escape]).  What follows is [clean_source] and the functions
    that reach it, with the release as a parameter; on [Before37] they are
    the definitions above. *)

Inductive release :=
  | Before37
  | From37.

Definition re_escape_on (v : release) : string → string :=
  match v with
  | Before37 => Py.re_escape
  | From37 => Py37.re_escape
  end.

Definition clean_source_on (v : release) (s : string) : string :=
  let r := Py.strip s in
  let r := re_escape_on v r in
  let r := Py.replace r "\/" "/" in
  r.

Definition handle_rule_on (v : release) (idspace rule_type : string)
    (rule : gmap string string) (st : locals) : comp locals :=
  if (rule_type =? "path")%string then
    p ← getitem rule "path";
    r ← getitem rule "replacement";
    Ok (Locals p (prefix st) ("(?i)^" +:+ clean_source_on v p +:+ "$") r
          (rule_level st) (status st))
  else if (rule_type =? "prefix")%string then
    p ← getitem rule "prefix";
    r ← getitem rule "replacement";
    Ok (Locals (path st) p ("(?i)^" +:+ clean_source_on v p +:+ "(.*)$")
          (r +:+ "$1") (rule_level st) (status st))
  else if (rule_type =? "regex")%string then
    if negb (contains "level" rule) then Raise RegexWithoutLevel
    else
      s ← getitem rule "regex";
      r ← getitem rule "replacement";
      Ok (Locals (path st) (prefix st) s r (rule_level st) (status st))
  else if (rule_type =? "term_browser")%string then
    b ← getitem rule "term_browser";
    if (Py.lower b =? "ontobee")%string then
      Ok (Locals (path st) (prefix st)
            ("(?i)^/obo/" +:+ idspace +:+ "_(\d+)$")
            ("http://www.ontobee.org/browser/rdf.php?o=" +:+ idspace +:+
             "&iri=http://purl.obolibrary.org/obo/" +:+ idspace +:+ "_$1")
            "top" "see other")
    else Raise UnknownBrowser
  else Ok st.

Definition checked_on (v : release) (idspace : string)
    (rule : gmap string string) : comp (string * locals) :=
  let base_url := base_url_of idspace in
  rule_type ← determine_type rule;
  _ ← validate_replacement rule_type rule;
  st ← handle_rule_on v idspace rule_type rule initial_locals;
  _ ← check_idspace base_url rule_type st;
  Ok (rule_type, st).

Definition resolve_on (v : release) (idspace : string)
    (rule : gmap string string) : comp (string * locals) :=
  '(rule_type, st) ← checked_on v idspace rule;
  st ← determine_level (base_url_of idspace) rule_type rule st;
  Ok (rule_type, st).

Definition process_rule_on (v : release) (processing_level idspace : string)
    (rule : yaml) : comp (option string) :=
  match rule with
  | YScalar _ => Raise NotAMap
  | YMap rule =>
      '(rule_type, st) ← resolve_on v idspace rule;
      emit processing_level idspace rule rule_type st
  end.

(** The escaping as the specification words it, on either release: every
    character is escaped as the [re.escape] of the release escapes it, but a
    forward slash, which stays as it is. *)
Definition escape_but_slash_on (v : release) (c : ascii) : string :=
  if Ascii.eqb c "/" then "/"
  else match v with
       | Before37 => Py.escape_char c
       | From37 => Py37.escape_char c
       end.

Fixpoint escaped_except_slashes_on (v : release) (s : string) : string :=
  match s with
  | EmptyString => EmptyString
  | String c s' => escape_but_slash_on v c +:+ escaped_except_slashes_on v s'
  end.

(** A trimmed string neither starts nor ends with whitespace. *)
Definition starts_with_space (s : string) : bool :=
  match s with
  | EmptyString => false
  | String c _ => Py.isspace c
  end.

Fixpoint ends_with_space (s : string) : bool :=
  match s with
  | EmptyString => false
  | String c EmptyString => Py.isspace c
  | String _ s' => ends_with_space s'
  end.

(** ** Facts about the string primitives *)

Section StringFacts.

Lemma alphanum_not_slash c : Py.alphanum c = true → c ≠ "/"%char.
Proof. intros H ->. discriminate H. Qed.

Lemma alphanum_not_backslash c : Py.alphanum c = true → c ≠ "\"%char.
Proof. intros H ->. discriminate H. Qed.

Lemma prefix_cons a b s t :
  String.prefix (String a s) (String b t)
  = if Ascii.ascii_dec a b then String.prefix s t else false.
Proof. reflexivity. Qed.

Lemma re_escape_head r c s : Py.re_escape r = String c s → c ≠ "/"%char.
Proof.
  destruct r as [|a r]; simpl; [discriminate|].
  unfold Py.escape_char.
  destruct (Py.alphanum a) eqn:Ha.
  - simpl. intros [= <- _]. by apply alphanum_not_slash.
  - destruct (N_of_ascii a =? 0)%N; simpl; by intros [= <- _].
Qed.

Lemma replace_from_head_other old new c s :
  String.prefix old (String c s) = false →
  Py.replace_from old new 0 (String c s)
  = String c (Py.replace_from old new 0 s).
Proof. intros H. cbn [Py.replace_from]. by rewrite H. Qed.

Lemma append_cons c s t : String c s +:+ t = String c (s +:+ t).
Proof. reflexivity. Qed.

Lemma append_nil t : "" +:+ t = t.
Proof. reflexivity. Qed.

Lemma prefix_nil s : String.prefix "" s = true.
Proof. by destruct s. Qed.

Lemma replace_from_unslash s :
  Py.replace_from "\/" "/" 0 (String "\" (String "/" s))
  = String "/" (Py.replace_from "\/" "/" 0 s).
Proof.
  cbn [Py.replace_from]. rewrite !prefix_cons, prefix_nil.
  destruct (Ascii.ascii_dec "\" "\"); [|congruence].
  destruct (Ascii.ascii_dec "/" "/"); [|congruence].
  reflexivity.
Qed.

(** Taking the backslash off the slashes of an escaped string leaves what
    escaping every character but the slashes gives. *)
Lemma replace_re_escape r :
  Py.replace (Py.re_escape r) "\/" "/" = escaped_except_slashes r.
Proof.
  change (Py.replace (Py.re_escape r) "\/" "/")
    with (Py.replace_from "\/" "/" 0 (Py.re_escape r)).
  induction r as [|c r IH]; [reflexivity|].
  cbn [Py.re_escape escaped_except_slashes].
  unfold escape_but_slash.
  destruct (Ascii.eqb_spec c "/") as [->|Hc].
  - change (Py.escape_char "/") with "\/".
    rewrite !append_cons, append_nil. by rewrite replace_from_unslash, IH.
  - unfold Py.escape_char.
    destruct (Py.alphanum c) eqn:Ha.
    + rewrite append_cons, append_nil.
      rewrite replace_from_head_other, IH; [done|].
      rewrite prefix_cons.
      destruct (Ascii.ascii_dec "\" c) as [<-|]; [discriminate Ha|done].
    + destruct (N_of_ascii c =? 0)%N.
      * rewrite !append_cons, append_nil.
        do 4 (rewrite replace_from_head_other;
              [|rewrite !prefix_cons;
                repeat (destruct (Ascii.ascii_dec _ _) as [E|E];
                        try discriminate E; try reflexivity)]).
        by rewrite IH.
      * rewrite !append_cons, append_nil.
        rewrite replace_from_head_other.
        2:{ rewrite !prefix_cons. destruct (Ascii.ascii_dec "/" c); [congruence|].
            by destruct (Ascii.ascii_dec _ _). }
        f_equal.
        destruct (Py.re_escape r) as [|a s] eqn:Hr.
        { rewrite <- IH. cbn [Py.replace_from].
          rewrite prefix_cons. by destruct (Ascii.ascii_dec _ _). }
        rewrite replace_from_head_other; [by rewrite IH|].
        rewrite !prefix_cons.
        destruct (Ascii.ascii_dec "\" c); [|done].
        destruct (Ascii.ascii_dec "/" a) as [<-|]; [|done].
        by apply re_escape_head in Hr.
Qed.

(** On Python 3.7 and later the replace of line 118 finds nothing to do as
    long as the string has no backslash of its own; a backslash before a
    slash loses its escape. *)
Lemma replace_re_escape37 r :
  Py37.has_char "\" r = false →
  Py.replace (Py37.re_escape r) "\/" "/" = Py37.re_escape r.
Proof.
  change (Py.replace (Py37.re_escape r) "\/" "/")
    with (Py.replace_from "\/" "/" 0 (Py37.re_escape r)).
  induction r as [|c r IH]; [reflexivity|].
  cbn [Py37.has_char Py37.re_escape]. intros [Hc Hr]%orb_false_elim.
  apply Ascii.eqb_neq in Hc. specialize (IH Hr).
  unfold Py37.escape_char.
  destruct (existsb (Ascii.eqb c) Py37.special) eqn:Hs.
  - assert (c ≠ "/"%char) by (intros ->; discriminate Hs).
    rewrite !append_cons, append_nil.
    rewrite replace_from_head_other.
    2:{ rewrite !prefix_cons. destruct (Ascii.ascii_dec "/" c); [congruence|].
        by destruct (Ascii.ascii_dec _ _). }
    rewrite replace_from_head_other, IH; [done|].
    rewrite prefix_cons. by destruct (Ascii.ascii_dec "\" c).
  - rewrite append_cons, append_nil.
    rewrite replace_from_head_other, IH; [done|].
    rewrite prefix_cons. by destruct (Ascii.ascii_dec "\" c).
Qed.

Lemma clean_source37_spec s :
  Py37.has_char "\" (Py.strip s) = false →
  Py37.clean_source37 s = Py37.re_escape (Py.strip s).
Proof. apply replace_re_escape37. Qed.

Example clean_source37_backslash_slash :
  Py37.clean_source37 "\/" = "\/" ∧ clean_source "\/" = "\\/".
Proof. by vm_compute. Qed.

Lemma clean_source_spec s :
  clean_source s = escaped_except_slashes (Py.strip s).
Proof. apply replace_re_escape. Qed.

Lemma metachars_escaped c :
  In c metachars → escape_but_slash c = String "\" (String c EmptyString).
Proof.
  unfold metachars. cbn [list_ascii_of_string In].
  intros H. repeat (destruct H as [<-|H]; [reflexivity|]). destruct H.
Qed.

End StringFacts.

(** ** The rule interpreter, variant by variant *)

#[global] Arguments Py.startswith : simpl never.
#[global] Arguments Py.lower : simpl never.
#[global] Arguments Py.strip : simpl never.
#[global] Arguments clean_source : simpl never.
#[global] Arguments base_url_of : simpl never.

Section Variants.

Implicit Types (rule : gmap string string) (idspace : string).

Lemma contains_true k rule : contains k rule = true ↔ is_Some (rule !! k).
Proof.
  unfold contains. destruct (rule !! k); split; done.
Qed.

Lemma contains_false k rule : contains k rule = false ↔ rule !! k = None.
Proof. unfold contains. by destruct (rule !! k). Qed.

(** A rule has one type exactly when one type key is in it. *)
Lemma rule_types_single rule t :
  rule_types rule = [t] →
  t ∈ ["path"; "prefix"; "regex"; "term_browser"]
  ∧ is_Some (rule !! t)
  ∧ ∀ k, k ∈ ["path"; "prefix"; "regex"; "term_browser"] → k ≠ t → rule !! k = None.
Proof.
  unfold rule_types.
  destruct (contains "path" rule) eqn:H1, (contains "prefix" rule) eqn:H2,
    (contains "regex" rule) eqn:H3, (contains "term_browser" rule) eqn:H4;
    simpl; intros [= <-];
    rewrite ?contains_true, ?contains_false in *;
    (split; [repeat constructor|]); (split; [done|]);
    intros k Hk Hne;
    repeat (apply elem_of_cons in Hk as [->|Hk]; [done|]);
    by apply elem_of_nil in Hk.
Qed.

Lemma checked_path idspace rule p :
  rule_types rule = ["path"] → rule !! "path" = Some p →
  checked idspace rule =
    match rule !! "replacement" with
    | None => Raise ReplacementError
    | Some r =>
        if (Py.strip r =? "")%string then Raise ReplacementError
        else if Py.startswith (Py.lower p) (base_url_of idspace)
        then Ok ("path", Locals p "" ("(?i)^" +:+ clean_source p +:+ "$") r
                           "top" "temporary")
        else Raise NamespaceMismatch
    end.
Proof.
  intros Ht Hp. unfold checked, determine_type. rewrite Ht. cbn.
  unfold validate_replacement, handle_rule, contains, getitem. cbn.
  rewrite Hp.
  destruct (rule !! "replacement") as [r|]; cbn; [|done].
  destruct (Py.strip r =? "")%string; cbn; [done|].
  unfold check_idspace; cbn.
  by destruct (Py.startswith _ _).
Qed.

Lemma checked_prefix idspace rule p :
  rule_types rule = ["prefix"] → rule !! "prefix" = Some p →
  checked idspace rule =
    match rule !! "replacement" with
    | None => Raise ReplacementError
    | Some r =>
        if (Py.strip r =? "")%string then Raise ReplacementError
        else if Py.startswith (Py.lower p) (base_url_of idspace)
        then Ok ("prefix", Locals "" p ("(?i)^" +:+ clean_source p +:+ "(.*)$")
                             (r +:+ "$1") "top" "temporary")
        else Raise NamespaceMismatch
    end.
Proof.
  intros Ht Hp. unfold checked, determine_type. rewrite Ht. cbn.
  unfold validate_replacement, handle_rule, contains, getitem. cbn.
  rewrite Hp.
  destruct (rule !! "replacement") as [r|]; cbn; [|done].
  destruct (Py.strip r =? "")%string; cbn; [done|].
  unfold check_idspace; cbn.
  by destruct (Py.startswith _ _).
Qed.

Lemma checked_regex idspace rule s :
  rule_types rule = ["regex"] → rule !! "regex" = Some s →
  checked idspace rule =
    match rule !! "replacement" with
    | None => Raise ReplacementError
    | Some r =>
        if (Py.strip r =? "")%string then Raise ReplacementError
        else if contains "level" rule
        then Ok ("regex", Locals "" "" s r "top" "temporary")
        else Raise RegexWithoutLevel
    end.
Proof.
  intros Ht Hs. unfold checked, determine_type. rewrite Ht. cbn.
  unfold validate_replacement, handle_rule, getitem. cbn.
  rewrite Hs. unfold contains at 1 2.
  destruct (rule !! "replacement") as [r|]; cbn; [|done].
  destruct (Py.strip r =? "")%string; cbn; [done|].
  unfold contains. by destruct (rule !! "level").
Qed.

Lemma checked_term_browser idspace rule b :
  rule_types rule = ["term_browser"] → rule !! "term_browser" = Some b →
  checked idspace rule =
    match rule !! "replacement" with
    | Some _ => Raise ReplacementError
    | None =>
        if (Py.lower b =? "ontobee")%string
        then Ok ("term_browser",
                 Locals "" "" ("(?i)^/obo/" +:+ idspace +:+ "_(\d+)$")
                   ("http://www.ontobee.org/browser/rdf.php?o=" +:+ idspace +:+
                    "&iri=http://purl.obolibrary.org/obo/" +:+ idspace +:+ "_$1")
                   "top" "see other")
        else Raise UnknownBrowser
    end.
Proof.
  intros Ht Hb. unfold checked, determine_type. rewrite Ht. cbn.
  unfold validate_replacement, handle_rule, contains, getitem. cbn.
  rewrite Hb.
  destruct (rule !! "replacement") as [r|]; cbn; [done|].
  by destruct (Py.lower b =? "ontobee")%string.
Qed.

Lemma determine_type_Ok rule t :
  determine_type rule = Ok t ↔ rule_types rule = [t].
Proof.
  unfold determine_type.
  destruct (rule_types rule) as [|t' [|t'' l]]; split; intros [=]; by subst.
Qed.

Lemma checked_Ok idspace rule t st :
  checked idspace rule = Ok (t, st)
  ↔ rule_types rule = [t] ∧ checked_rule idspace rule t st.
Proof.
  split.
  - intros H.
    assert (rule_types rule = [t]) as Ht.
    { unfold checked in H. destruct (determine_type rule) as [t'|] eqn:Hd;
        [|discriminate H].
      apply determine_type_Ok in Hd. rewrite Hd. f_equal.
      cbn in H.
      destruct (validate_replacement _ _); [|discriminate H]. cbn in H.
      destruct (handle_rule _ _ _ _); [|discriminate H]. cbn in H.
      destruct (check_idspace _ _ _); [|discriminate H]. cbn in H.
      congruence. }
    split; [done|].
    destruct (rule_types_single _ _ Ht) as (Hin & [v Hv] & _).
    repeat (apply elem_of_cons in Hin as [->|Hin]).
    + rewrite (checked_path _ _ v) in H by done.
      destruct (rule !! "replacement") as [r|] eqn:Hr; [|discriminate H].
      destruct (String.eqb_spec (Py.strip r) ""); [discriminate H|].
      destruct (Py.startswith _ _) eqn:Hs; [|discriminate H].
      injection H as <-. by constructor.
    + rewrite (checked_prefix _ _ v) in H by done.
      destruct (rule !! "replacement") as [r|] eqn:Hr; [|discriminate H].
      destruct (String.eqb_spec (Py.strip r) ""); [discriminate H|].
      destruct (Py.startswith _ _) eqn:Hs; [|discriminate H].
      injection H as <-. by constructor.
    + rewrite (checked_regex _ _ v) in H by done.
      destruct (rule !! "replacement") as [r|] eqn:Hr; [|discriminate H].
      destruct (String.eqb_spec (Py.strip r) ""); [discriminate H|].
      destruct (contains "level" rule) eqn:Hl; [|discriminate H].
      injection H as <-. constructor; try done. by apply contains_true.
    + rewrite (checked_term_browser _ _ v) in H by done.
      destruct (rule !! "replacement") as [r|] eqn:Hr; [discriminate H|].
      destruct (String.eqb_spec (Py.lower v) "ontobee"); [|discriminate H].
      injection H as <-. by apply (checked_is_term_browser _ _ v).
    + by apply elem_of_nil in Hin.
  - intros [Ht H]. destruct H as [p r Hp Hr Hne Hs|p r Hp Hr Hne Hs
                                 |s r Hs Hr Hne Hl|b Hb Hlow Hr].
    + rewrite (checked_path _ _ p), Hr, Hs by done.
      by destruct (String.eqb_spec (Py.strip r) "").
    + rewrite (checked_prefix _ _ p), Hr, Hs by done.
      by destruct (String.eqb_spec (Py.strip r) "").
    + rewrite (checked_regex _ _ s), Hr by done.
      apply contains_true in Hl. rewrite Hl.
      by destruct (String.eqb_spec (Py.strip r) "").
    + rewrite (checked_term_browser _ _ b), Hr, Hlow by done.
      reflexivity.
Qed.

Lemma rule_types_filter rule : rule_types rule = type_fields_of rule.
Proof.
  unfold rule_types, type_fields_of, type_fields. cbn [List.filter].
  by destruct (contains "path" rule), (contains "prefix" rule),
    (contains "regex" rule), (contains "term_browser" rule).
Qed.

Lemma process_rule_resolve processing_level idspace rule :
  process_rule processing_level idspace (YMap rule)
  = resolve idspace rule
      ≫= λ '(t, st), emit processing_level idspace rule t st.
Proof. reflexivity. Qed.

Lemma resolve_raise idspace rule e :
  checked idspace rule = Raise e → resolve idspace rule = Raise e.
Proof. unfold resolve. by intros ->. Qed.

Lemma process_rule_raise processing_level idspace rule e :
  resolve idspace rule = Raise e →
  process_rule processing_level idspace (YMap rule) = Raise e.
Proof. rewrite process_rule_resolve. by intros ->. Qed.

Lemma process_rule_Ok processing_level idspace rule t st :
  resolve idspace rule = Ok (t, st) →
  process_rule processing_level idspace (YMap rule)
  = emit processing_level idspace rule t st.
Proof. rewrite process_rule_resolve. by intros ->. Qed.

Lemma resolve_Ok idspace rule t st :
  resolve idspace rule = Ok (t, st)
  ↔ ∃ st0, checked idspace rule = Ok (t, st0)
           ∧ determine_level (base_url_of idspace) t rule st0 = Ok st.
Proof.
  unfold resolve. split.
  - destruct (checked idspace rule) as [[t0 st0]|]; [|done]. cbn.
    destruct (determine_level _ _ _ _) eqn:Hd; [|done]. cbn.
    intros [= -> ->]. by exists st0.
  - intros (st0 & -> & Hd). cbn. by rewrite Hd.
Qed.

Lemma checked_rule_level idspace rule t st :
  checked_rule idspace rule t st → rule_level st = "top".
Proof. by intros []. Qed.

Lemma determine_level_eq base_url t rule st :
  rule_level st = "top" →
  determine_level base_url t rule st =
    match rule !! "level" with
    | Some l =>
        if valid_level (Py.lower l) then Ok (set_rule_level (Py.lower l) st)
        else Raise InvalidLevel
    | None =>
        Ok (set_rule_level
              (if Py.startswith (Py.lower (path st)) (base_url +:+ "/")
                  || Py.startswith (Py.lower (prefix st)) (base_url +:+ "/")
               then "project" else "top") st)
    end.
Proof.
  intros Htop. unfold determine_level, contains, getitem.
  destruct (rule !! "level") as [l|]; [done|].
  assert (st = set_rule_level "top" st) as Hst
    by (destruct st; cbn in *; by subst).
  destruct (Py.startswith (Py.lower (path st)) _); [done|].
  destruct (Py.startswith (Py.lower (prefix st)) _); [done|]. cbn.
  destruct (t =? "term_browser")%string; congruence.
Qed.

Lemma checked_rule_fields idspace rule t st :
  rule_types rule = [t] → checked_rule idspace rule t st →
  path st = default "" (rule !! "path")
  ∧ prefix st = default "" (rule !! "prefix").
Proof.
  intros Ht H. destruct (rule_types_single _ _ Ht) as (_ & _ & Hnone).
  assert (∀ k, k ∈ type_fields → k ≠ t → default "" (rule !! k) = "") as Hd
    by (intros k Hk Hne; by rewrite (Hnone k Hk Hne)).
  destruct H as [p r Hp Hr _ _|p r Hp Hr _ _|s r Hs Hr _ _|b Hb _ Hr]; cbn;
    rewrite ?Hp, ?(Hd "path"), ?(Hd "prefix"); cbn;
    try done; repeat constructor.
Qed.

(** What [resolve] returns: the locals of the checked rule, with the
    level that the order of the specification gives. *)
Lemma resolve_inv idspace rule t st :
  resolve idspace rule = Ok (t, st) →
  ∃ st0, rule_types rule = [t]
         ∧ checked_rule idspace rule t st0
         ∧ st = set_rule_level (level_by_order idspace t rule) st0
         ∧ (level_by_order idspace t rule = "project"
            ∨ level_by_order idspace t rule = "top").
Proof.
  intros (st0 & Hc & Hl)%resolve_Ok. exists st0.
  apply checked_Ok in Hc as [Ht Hc]. do 2 (split; [done|]).
  rewrite determine_level_eq in Hl by (by eapply checked_rule_level).
  unfold valid_level in Hl.
  destruct (checked_rule_fields _ _ _ _ Ht Hc) as [Hpath Hprefix].
  unfold level_by_order. rewrite <- Hpath, <- Hprefix.
  destruct (rule !! "level") as [l|].
  - destruct (String.eqb_spec (Py.lower l) "project") as [Hp|_];
      [|destruct (String.eqb_spec (Py.lower l) "top") as [Hp|_]];
      cbn in Hl; try discriminate Hl; injection Hl as <-;
      (split; [done|by auto]).
  - injection Hl as <-.
    destruct (_ || _); [by auto|].
    destruct (t =? "term_browser")%string; by auto.
Qed.

Lemma base_url_head idspace : ∃ s, base_url_of idspace = String "/" s.
Proof. unfold base_url_of. destruct (idspace =? "OBO")%string; by eexists. Qed.

Lemma top_allowed_true idspace rule t st0 lv :
  rule_types rule = [t] → checked_rule idspace rule t st0 →
  top_allowed (base_url_of idspace) idspace t (set_rule_level lv st0) = true
  ↔ allowed_at_top idspace t rule.
Proof.
  intros Ht Hc. destruct (rule_types_single _ _ Ht) as (_ & _ & Hnone).
  destruct (base_url_head idspace) as [b Hb].
  unfold top_allowed, allowed_at_top.
  rewrite !orb_true_iff, !String.eqb_eq.
  destruct Hc as [p r Hp Hr _ _|p r Hp Hr _ _|s r Hs Hr _ _|b' Hb' _ Hr];
    cbn [path prefix set_rule_level].
  - rewrite Hp, (Hnone "prefix"); [|repeat constructor|done].
    rewrite Hb. naive_solver.
  - rewrite Hp, (Hnone "path"); [|repeat constructor|done].
    rewrite Hb. naive_solver.
  - naive_solver.
  - naive_solver.
Qed.

Lemma emit_not_pollution rule st (k : locals → option string) :
  (validate_status rule st ≫= λ st', Ok (k st')) ≠ Raise TopLevelPollution.
Proof.
  unfold validate_status, getitem, contains.
  destruct (rule !! "status") as [s|]; cbn; [|done].
  by destruct (valid_status _).
Qed.

Lemma emit_top_top idspace rule t st :
  rule_level st = "top" →
  emit "top" idspace rule t st = Raise TopLevelPollution
  ↔ top_allowed (base_url_of idspace) idspace t st = false.
Proof.
  intros Hl. unfold emit. rewrite Hl. cbn.
  destruct (top_allowed _ _ _ _); cbn; [|done].
  split; [|done]. intros H. by apply emit_not_pollution in H.
Qed.

Lemma emit_other_level processing_level idspace rule t st :
  processing_level = "project" ∨ processing_level = "top" →
  rule_level st = "project" ∨ rule_level st = "top" →
  rule_level st ≠ processing_level →
  emit processing_level idspace rule t st = Ok None.
Proof.
  unfold emit. intros [-> | ->] [Hl | Hl] Hne; rewrite Hl in *; done.
Qed.

Lemma resolve_not_invalid_status idspace rule :
  resolve idspace rule ≠ Raise InvalidStatus.
Proof.
  unfold resolve.
  destruct (checked idspace rule) as [[t0 st0]|e] eqn:Hc; cbn.
  - apply checked_Ok in Hc as [_ Hc].
    rewrite determine_level_eq by (by eapply checked_rule_level).
    destruct (rule !! "level"); [|done].
    by destruct (valid_level _).
  - intros [= ->]. revert Hc. unfold checked, determine_type.
    destruct (rule_types rule) as [|t1 [|t2 l]]; cbn; try done.
    unfold validate_replacement, handle_rule, check_idspace, getitem.
    repeat (match goal with
            | |- context [if ?b then _ else _] => destruct b; cbn
            | |- context [match ?o with Some _ => _ | None => _ end] =>
                destruct o; cbn
            end; try done).
Qed.

Lemma emit_invalid_status processing_level idspace rule t st :
  emit processing_level idspace rule t st = Raise InvalidStatus →
  ¬ (processing_level = "project" ∧ rule_level st = "top")
  ∧ ¬ (processing_level = "top" ∧ rule_level st = "project")
  ∧ (processing_level = "top"
     → top_allowed (base_url_of idspace) idspace t st = true)
  ∧ ∃ s, rule !! "status" = Some s
         ∧ s ∉ ["permanent"; "temporary"; "see other"].
Proof.
  unfold emit, validate_status, valid_status, getitem, contains.
  destruct (String.eqb_spec processing_level "project") as [Hp|Hp];
    destruct (String.eqb_spec (rule_level st) "top") as [Hl|Hl];
    cbn; try done;
    destruct (String.eqb_spec processing_level "top") as [Hm|Hm];
    destruct (String.eqb_spec (rule_level st) "project") as [Hl'|Hl'];
    cbn; try done;
    destruct (top_allowed _ _ _ _); cbn; try done;
    (destruct (rule !! "status") as [s|]; cbn; [|done]);
    destruct (String.eqb_spec s "permanent"), (String.eqb_spec s "temporary"),
      (String.eqb_spec s "see other"); cbn; try done;
    intros _; (repeat split; [try congruence; naive_solver..|]);
    exists s; (split; [done|]);
    intros Hin; repeat (apply elem_of_cons in Hin as [->|Hin]; [done|]);
    by apply elem_of_nil in Hin.
Qed.

Lemma variant_of_key rule t k :
  rule_types rule = [t] → k ∈ type_fields → is_Some (rule !! k) → t = k.
Proof.
  intros Ht Hk [v Hv]. destruct (rule_types_single _ _ Ht) as (_ & _ & Hnone).
  destruct (decide (k = t)) as [|Hne]; [done|].
  by rewrite (Hnone k Hk Hne) in Hv.
Qed.

(** What is emitted for a rule that is neither filtered out nor refused
    at top level. *)
Lemma emit_survivor processing_level idspace rule t st :
  emit processing_level idspace rule t st ≠ Ok None →
  emit processing_level idspace rule t st ≠ Raise TopLevelPollution →
  emit processing_level idspace rule t st =
    match rule !! "status" with
    | None =>
        Ok (Some (directive (apache_status (status st)) (source st)
                    (replacement st)))
    | Some s =>
        if valid_status s
        then Ok (Some (directive (apache_status s) (source st) (replacement st)))
        else Raise InvalidStatus
    end.
Proof.
  unfold emit, validate_status, getitem, contains.
  destruct (_ && _); [done|]. destruct (_ && _); [done|].
  destruct (_ && _); [done|]. intros _ _.
  destruct (rule !! "status") as [s|]; cbn; [|done].
  by destruct (valid_status _).
Qed.

Lemma emit_Some processing_level idspace rule t st d :
  emit processing_level idspace rule t st = Ok (Some d) →
  d = directive
        (apache_status (default (status st) (rule !! "status")))
        (source st) (replacement st).
Proof.
  intros H. rewrite emit_survivor in H by (by rewrite H).
  destruct (rule !! "status") as [s|]; cbn.
  - destruct (valid_status s); by inversion H.
  - by inversion H.
Qed.

Lemma process_rule_Some processing_level idspace rule d :
  process_rule processing_level idspace (YMap rule) = Ok (Some d) →
  ∃ t st, resolve idspace rule = Ok (t, st)
          ∧ emit processing_level idspace rule t st = Ok (Some d).
Proof.
  rewrite process_rule_resolve.
  destruct (resolve idspace rule) as [[t st]|]; [|done]. by exists t, st.
Qed.

(** The lookups of [process_rule] are all guarded: no [KeyError]. *)
Lemma checked_no_KeyError idspace rule k :
  checked idspace rule ≠ Raise (KeyError k).
Proof.
  destruct (rule_types rule) as [|t [|t' l]] eqn:Ht;
    [unfold checked, determine_type; by rewrite Ht| |
     unfold checked, determine_type; by rewrite Ht].
  destruct (rule_types_single _ _ Ht) as (Hin & [v Hv] & _).
  repeat (apply elem_of_cons in Hin as [->|Hin]);
    [rewrite (checked_path _ _ v) by done
    |rewrite (checked_prefix _ _ v) by done
    |rewrite (checked_regex _ _ v) by done
    |rewrite (checked_term_browser _ _ v) by done
    |by apply elem_of_nil in Hin];
    repeat (match goal with
            | |- context [if ?b then _ else _] => destruct b
            | |- context [match ?o with Some _ => _ | None => _ end] =>
                destruct o
            end; try done).
Qed.

Lemma process_rule_no_KeyError processing_level idspace (y : yaml) k :
  process_rule processing_level idspace y ≠ Raise (KeyError k).
Proof.
  destruct y as [rule|]; [|done].
  rewrite process_rule_resolve. unfold resolve.
  destruct (checked idspace rule) as [[t st]|e] eqn:Hc; cbn;
    [|intros [= ->]; by apply checked_no_KeyError in Hc].
  apply checked_Ok in Hc as [_ Hc%checked_rule_level].
  rewrite determine_level_eq by done.
  destruct (rule !! "level");
    [destruct (valid_level _); [|done]|]; cbn;
    unfold emit, validate_status, contains, getitem;
    repeat (match goal with
            | |- context [rule !! ?f] => destruct (rule !! f); cbn
            | |- context [if ?b then _ else _] => destruct b; cbn
            end; try done).
Qed.

(** The unit tests of the script pass. *)
Lemma unit_tests_pass :
  Tests.test_missing_type = true
  ∧ Tests.test_multiple_types = true
  ∧ Tests.test_term_browser_replacement = true
  ∧ Tests.test_regex_without_level = true
  ∧ Tests.test_invalid_term_browser = true
  ∧ Tests.test_idspace_crosstalk = true
  ∧ Tests.test_level_crosstalk = true
  ∧ Tests.test_top_level_pollution = true
  ∧ Tests.test_invalid_level = true.
Proof. by vm_compute. Qed.

End Variants.

(** ** The properties of the rule interpreter *)

(** C1, as the code has it.  For a term_browser rule whose value is ontobee
    once lowercased (and which has no replacement): without a level field
    the level is top, so the rule is suppressed in project mode; without a
    status field the status is see other, so whatever is emitted has the
    keyword seeother; with neither field, top mode emits the seeother
    directive.  A valid level or status field of the rule takes precedence:
    the level is the lowercased level field and the keyword is the one of
    the status field. *)
Theorem term_browser_defaults (idspace b : string) (rule : gmap string string) :
  rule_types rule = ["term_browser"] →
  rule !! "term_browser" = Some b →
  Py.lower b = "ontobee" →
  rule !! "replacement" = None →
  let src := "(?i)^/obo/" +:+ idspace +:+ "_(\d+)$" in
  let repl := "http://www.ontobee.org/browser/rdf.php?o=" +:+ idspace +:+
              "&iri=http://purl.obolibrary.org/obo/" +:+ idspace +:+ "_$1" in
  (rule !! "level" = None →
   (∃ st, resolve idspace rule = Ok ("term_browser", st) ∧ rule_level st = "top")
   ∧ process_rule "project" idspace (YMap rule) = Ok None)
  ∧ (rule !! "status" = None →
     ∀ processing_level d,
       process_rule processing_level idspace (YMap rule) = Ok (Some d) →
       d = directive "seeother" src repl)
  ∧ (rule !! "level" = None → rule !! "status" = None →
     process_rule "top" idspace (YMap rule)
     = Ok (Some (directive "seeother" src repl)))
  ∧ (∀ l, rule !! "level" = Some l → valid_level (Py.lower l) = true →
     ∃ st, resolve idspace rule = Ok ("term_browser", st)
           ∧ rule_level st = Py.lower l)
  ∧ (∀ s, rule !! "status" = Some s → valid_status s = true →
     ∀ processing_level d,
       process_rule processing_level idspace (YMap rule) = Ok (Some d) →
       d = directive (apache_status s) src repl).
Proof.
  intros Ht Hb Hlow Hrepl src repl.
  pose (st0 := Locals "" "" src repl "top" "see other").
  assert (checked idspace rule = Ok ("term_browser", st0)) as Hc
    by (apply checked_Ok; split; [done|by apply (checked_is_term_browser _ _ b)]).
  assert (rule !! "level" = None →
          resolve idspace rule = Ok ("term_browser", st0)) as Hres.
  { intros Hl. apply resolve_Ok. exists st0. split; [done|].
    rewrite determine_level_eq, Hl by done. cbn.
    destruct (base_url_head idspace) as [u ->]. reflexivity. }
  assert (∀ o processing_level d,
            rule !! "status" = o →
            process_rule processing_level idspace (YMap rule) = Ok (Some d) →
            d = directive (apache_status (default "see other" o)) src repl)
    as Hemit.
  { intros o processing_level d Hs (t & st & Hr & He)%process_rule_Some.
    apply emit_Some in He. rewrite Hs in He.
    apply resolve_Ok in Hr as (st1 & Hc1 & Hd).
    rewrite Hc in Hc1. injection Hc1 as <- <-.
    rewrite determine_level_eq in Hd by done.
    destruct (rule !! "level");
      [destruct (valid_level _); [|done]|]; injection Hd as <-; done. }
  split; [|split; [|split; [|split]]].
  - intros Hl. specialize (Hres Hl). split; [by exists st0|].
    by rewrite (process_rule_Ok _ _ _ _ _ Hres).
  - intros Hs processing_level d Hd. apply (Hemit None _ _ Hs Hd).
  - intros Hl Hs. specialize (Hres Hl).
    rewrite (process_rule_Ok _ _ _ _ _ Hres).
    unfold emit, validate_status, contains, getitem. by rewrite Hs.
  - intros l Hl Hv. exists (set_rule_level (Py.lower l) st0). split; [|done].
    apply resolve_Ok. exists st0. split; [done|].
    by rewrite determine_level_eq, Hl, Hv.
  - intros s Hs _ processing_level d Hd. apply (Hemit (Some s) _ _ Hs Hd).
Qed.

Lemma term_browser_defaults_witness :
  process_rule "top" "GO" (YMap {[ "term_browser" := "Ontobee" ]})
  = Ok (Some (directive "seeother" "(?i)^/obo/GO_(\d+)$"
    "http://www.ontobee.org/browser/rdf.php?o=GO&iri=http://purl.obolibrary.org/obo/GO_$1"))
  ∧ ∃ st, resolve "GO" {[ "term_browser" := "ontobee"; "level" := "Project" ]}
          = Ok ("term_browser", st)
          ∧ rule_level st = Py.lower "Project".
Proof.
  split.
  - refine (proj1 (proj2 (proj2 (term_browser_defaults "GO" "Ontobee"
              {[ "term_browser" := "Ontobee" ]} _ _ _ _))) _ _);
      vm_compute; reflexivity.
  - refine (proj1 (proj2 (proj2 (proj2 (term_browser_defaults "GO" "ontobee"
              {[ "term_browser" := "ontobee"; "level" := "Project" ]} _ _ _ _))))
              "Project" _ _);
      vm_compute; reflexivity.
Defined.

(** C1 as stated fails: the level and status fields of an ontobee rule are
    not overridden.  With level project and status permanent the rule is at
    project level and project mode emits a permanent redirect. *)
Lemma term_browser_defaults_counterexample :
  let rule : gmap string string :=
    {[ "term_browser" := "ontobee"; "level" := "project";
       "status" := "permanent" ]} in
  let src := "(?i)^/obo/GO_(\d+)$" in
  let repl := "http://www.ontobee.org/browser/rdf.php?o=GO&iri=http://purl.obolibrary.org/obo/GO_$1" in
  rule_types rule = ["term_browser"]
  ∧ Py.lower "ontobee" = "ontobee"
  ∧ resolve "GO" rule
    = Ok ("term_browser", Locals "" "" src repl "project" "see other")
  ∧ process_rule "top" "GO" (YMap rule) = Ok None
  ∧ process_rule "project" "GO" (YMap rule)
    = Ok (Some (directive "permanent" src repl)).
Proof. vm_compute. repeat split. Qed.

(** C2. In top mode, a rule whose level resolves to top fails with
    TopLevelPollution unless it is a regex rule, a term_browser rule, a path
    equal to the base URL or to the base URL followed by .owl or .obo, or a
    prefix equal to /obo/ followed by the idspace as given and an
    underscore.  The path /obo/obi_core.owl of the idspace OBI is such a
    failure. *)
Theorem top_mode_allow_list (idspace t : string) (st : locals)
    (rule : gmap string string) :
  resolve idspace rule = Ok (t, st) →
  rule_level st = "top" →
  (process_rule "top" idspace (YMap rule) = Raise TopLevelPollution
   ↔ ¬ allowed_at_top idspace t rule)
  ∧ process_rule "top" "OBI" (YMap Tests.top_level_pollution)
    = Raise TopLevelPollution.
Proof.
  intros Hr Hl. split; [|by vm_compute].
  rewrite (process_rule_Ok _ _ _ _ _ Hr), emit_top_top by done.
  apply resolve_inv in Hr as (st0 & Ht & Hc & -> & _).
  rewrite <- (top_allowed_true _ _ _ _ (level_by_order idspace t rule) Ht Hc).
  by destruct (top_allowed _ _ _ _).
Qed.

Lemma top_mode_allow_list_witness :
  ¬ allowed_at_top "OBI" "path" Tests.top_level_pollution.
Proof.
  refine (proj1 (proj1 (top_mode_allow_list "OBI" "path"
    (Locals "/obo/obi_core.owl" "" "(?i)^/obo/obi_core\.owl$" "foo" "top" "temporary")
    Tests.top_level_pollution _ _)) _).
  - vm_compute. reflexivity.
  - reflexivity.
  - vm_compute. reflexivity.
Defined.

(** C3. For the idspace OBI the path /obo/obi is suppressed in project mode
    and the path /obo/obi/ in top mode.  The level of a rule is the explicit
    level if there is one, else project if the path or prefix starts with
    the base URL and a slash, else the default of the variant, else top; a
    rule at top level is suppressed in project mode and a rule at project
    level in top mode. *)
Theorem level_resolution :
  process_rule "project" "OBI" (YMap Tests.level_crosstalk_top) = Ok None
  ∧ process_rule "top" "OBI" (YMap Tests.level_crosstalk_project) = Ok None
  ∧ ∀ idspace t st (rule : gmap string string),
      resolve idspace rule = Ok (t, st) →
      rule_level st = level_by_order idspace t rule
      ∧ (rule_level st = "top" →
         process_rule "project" idspace (YMap rule) = Ok None)
      ∧ (rule_level st = "project" →
         process_rule "top" idspace (YMap rule) = Ok None)
      ∧ ∀ p, rule !! "level" = None → rule !! "path" = Some p →
          rule_level st
          = if Py.startswith (Py.lower p) (base_url_of idspace +:+ "/")
            then "project" else "top".
Proof.
  do 2 (split; [by vm_compute|]).
  intros idspace t st rule Hr.
  rewrite !(process_rule_Ok _ _ _ _ _ Hr).
  apply resolve_inv in Hr as (st0 & Ht & Hc & -> & Hlv).
  cbn [rule_level set_rule_level].
  split; [done|]. split; [|split].
  - intros Hl. apply emit_other_level; cbn; rewrite ?Hl; by auto.
  - intros Hl. apply emit_other_level; cbn; rewrite ?Hl; by auto.
  - intros p Hlevel Hp. unfold level_by_order. rewrite Hlevel, Hp. cbn.
    destruct (rule_types_single _ _ Ht) as (_ & _ & Hnone).
    assert (t = "path") as ->.
    { destruct (decide (t = "path")) as [|Hne]; [done|].
      rewrite (Hnone "path") in Hp; [done|repeat constructor|congruence]. }
    rewrite (Hnone "prefix"); [|repeat constructor|done]. cbn.
    destruct (base_url_head idspace) as [b ->].
    by destruct (Py.startswith (Py.lower p) _).
Qed.

Lemma level_resolution_witness :
  process_rule "top" "OBI"
    (YMap {[ "prefix" := "/obo/OBI/"; "replacement" := "foo" ]}) = Ok None.
Proof.
  refine (proj1 (proj2 (proj2 (proj2 (proj2 level_resolution) "OBI" "prefix"
            (Locals "" "/obo/OBI/" "(?i)^/obo/OBI/(.*)$" "foo$1" "project"
               "temporary")
            {[ "prefix" := "/obo/OBI/"; "replacement" := "foo" ]} _))) _).
  - vm_compute. reflexivity.
  - reflexivity.
Defined.

(** C4, as the code has it.  A path or prefix rule with a replacement that
    is not blank, whose path or prefix does not start, once lowercased, with
    the base URL of the idspace, fails with NamespaceMismatch in every mode;
    the base URL is /obo for the idspace OBO and /obo/ followed by the
    lowercased idspace otherwise. *)
Theorem namespace_mismatch (processing_level idspace t v r : string)
    (rule : gmap string string) :
  rule_types rule = [t] →
  t = "path" ∨ t = "prefix" →
  rule !! t = Some v →
  rule !! "replacement" = Some r →
  Py.strip r ≠ "" →
  Py.startswith (Py.lower v) (base_url_of idspace) = false →
  base_url_of idspace
    = (if decide (idspace = "OBO") then "/obo" else "/obo/" +:+ Py.lower idspace)
  ∧ process_rule processing_level idspace (YMap rule) = Raise NamespaceMismatch.
Proof.
  intros Ht Hpp Hv Hr Hne Hs. split.
  { unfold base_url_of. destruct (String.eqb_spec idspace "OBO");
      by case_decide. }
  apply process_rule_raise, resolve_raise.
  destruct Hpp as [-> | ->];
    [rewrite (checked_path _ _ v) by done|rewrite (checked_prefix _ _ v) by done];
    rewrite Hr, Hs; by destruct (String.eqb_spec (Py.strip r) "").
Qed.

Lemma namespace_mismatch_witness :
  process_rule "project" "OBI" (YMap Tests.idspace_crosstalk)
  = Raise NamespaceMismatch.
Proof.
  refine (proj2 (namespace_mismatch "project" "OBI" "path" "/obo/chebi/" "foo"
                   Tests.idspace_crosstalk _ _ _ _ _ _)).
  - vm_compute. reflexivity.
  - left. reflexivity.
  - vm_compute. reflexivity.
  - vm_compute. reflexivity.
  - vm_compute. discriminate.
  - vm_compute. reflexivity.
Defined.

(** C4 as stated fails: a path rule outside the idspace that has no
    replacement fails with ReplacementError, which is raised first. *)
Lemma namespace_mismatch_counterexample :
  let rule : gmap string string := {[ "path" := "/obo/chebi/" ]} in
  rule_types rule = ["path"]
  ∧ Py.startswith (Py.lower "/obo/chebi/") (base_url_of "OBI") = false
  ∧ process_rule "project" "OBI" (YMap rule) = Raise ReplacementError
  ∧ process_rule "project" "OBI" (YMap rule) ≠ Raise NamespaceMismatch.
Proof. vm_compute. repeat split; discriminate. Qed.

(** C5. A rule with none of the four type keys (path, prefix, regex,
    term_browser) fails with MissingType and a rule with two or more of them
    fails with MultipleTypes, in every mode, for every idspace and whatever
    else the rule holds: no other check comes before. *)
Theorem type_errors_come_first (processing_level idspace : string)
    (rule : gmap string string) :
  (length (type_fields_of rule) = 0 →
     process_rule processing_level idspace (YMap rule) = Raise MissingType)
  ∧ ((2 ≤ length (type_fields_of rule))%nat →
     process_rule processing_level idspace (YMap rule) = Raise MultipleTypes).
Proof.
  rewrite <- rule_types_filter. split; intros H;
    apply process_rule_raise, resolve_raise; unfold checked, determine_type;
    destruct (rule_types rule) as [|t [|t' l]]; cbn in H; try done; lia.
Qed.

Lemma type_errors_come_first_witness :
  process_rule "project" "OBI" (YMap Tests.missing_type) = Raise MissingType
  ∧ process_rule "project" "OBI" (YMap Tests.multiple_types) = Raise MultipleTypes.
Proof.
  split.
  - apply (proj1 (type_errors_come_first "project" "OBI" Tests.missing_type)).
    vm_compute. reflexivity.
  - apply (proj2 (type_errors_come_first "project" "OBI" Tests.multiple_types)).
    vm_compute. apply le_n.
Defined.

(** C6, where the code falls short of it.  On Python 3.7 and later
    [re.escape] leaves the forward slash alone, and the replace of line 118
    then takes the backslash off every slash that follows an escaped
    backslash.  The path /obo/obi/a\/b of the idspace OBI is emitted in
    project mode with the source (?i)^/obo/obi/a\/b$, in which the backslash
    of the path stands unescaped, where escaping every metacharacter but the
    slashes gives (?i)^/obo/obi/a\\/b$; up to Python 3.6 this is the source
    that is emitted. *)
Theorem escaped_backslash_lost :
  let rule : gmap string string :=
    {[ "path" := "/obo/obi/a\/b"; "replacement" := "foo" ]} in
  process_rule_on From37 "project" "OBI" (YMap rule)
  = Ok (Some (directive "temp" "(?i)^/obo/obi/a\/b$" "foo"))
  ∧ "(?i)^" +:+ escaped_except_slashes_on From37 (Py.strip "/obo/obi/a\/b")
    +:+ "$"
    = "(?i)^/obo/obi/a\\/b$"
  ∧ In "\"%char metachars
  ∧ process_rule_on Before37 "project" "OBI" (YMap rule)
    = Ok (Some (directive "temp" "(?i)^/obo/obi/a\\/b$" "foo")).
Proof.
  repeat split; try (vm_compute; reflexivity).
  vm_compute. tauto.
Qed.

(** C7. A rule of the path, prefix or regex variant whose replacement is
    missing, or empty once stripped, fails with ReplacementError; a
    term_browser rule that has a replacement fails with ReplacementError. *)
Theorem replacement_errors (processing_level idspace t : string)
    (rule : gmap string string) :
  rule_types rule = [t] →
  (t ≠ "term_browser" →
   rule !! "replacement" = None
   ∨ (∃ r, rule !! "replacement" = Some r ∧ Py.strip r = "") →
   process_rule processing_level idspace (YMap rule) = Raise ReplacementError)
  ∧ (t = "term_browser" →
     is_Some (rule !! "replacement") →
     process_rule processing_level idspace (YMap rule) = Raise ReplacementError).
Proof.
  intros Ht. destruct (rule_types_single _ _ Ht) as (Hin & [v Hv] & _).
  split.
  - intros Hne Hr. apply process_rule_raise, resolve_raise.
    repeat (apply elem_of_cons in Hin as [->|Hin]); try done;
      [rewrite (checked_path _ _ v) by done
      |rewrite (checked_prefix _ _ v) by done
      |rewrite (checked_regex _ _ v) by done
      |by apply elem_of_nil in Hin];
      (destruct Hr as [->|(r & -> & ->)]; done).
  - intros -> [r Hr]. apply process_rule_raise, resolve_raise.
    by rewrite (checked_term_browser _ _ v), Hr.
Qed.

Lemma replacement_errors_witness :
  process_rule "top" "OBI" (YMap {[ "path" := "/obo/obi"; "replacement" := "  " ]})
    = Raise ReplacementError
  ∧ process_rule "top" "OBI" (YMap Tests.term_browser_replacement)
    = Raise ReplacementError.
Proof.
  split.
  - refine (proj1 (replacement_errors "top" "OBI" "path" _ _) _ _).
    + vm_compute. reflexivity.
    + discriminate.
    + right. exists "  ". split; vm_compute; reflexivity.
  - refine (proj2 (replacement_errors "top" "OBI" "term_browser" _ _) _ _).
    + vm_compute. reflexivity.
    + reflexivity.
    + exists "foo". vm_compute. reflexivity.
Defined.

(** C8, as the code has it.  For a rule that is neither filtered out by the
    mode nor refused at top level: without a status field the status is
    temporary, but see other for a term_browser rule; a status field must be
    permanent, temporary or see other, else InvalidStatus; and the result is
    the word RedirectMatch, the keyword (permanent, temp for temporary,
    seeother for see other), the quoted source and the quoted replacement. *)
Theorem status_and_directive (processing_level idspace t : string) (st : locals)
    (rule : gmap string string) :
  resolve idspace rule = Ok (t, st) →
  process_rule processing_level idspace (YMap rule) ≠ Ok None →
  process_rule processing_level idspace (YMap rule) ≠ Raise TopLevelPollution →
  process_rule processing_level idspace (YMap rule) =
    match rule !! "status" with
    | None =>
        Ok (Some (directive (if (t =? "term_browser")%string
                             then "seeother" else "temp")
                    (source st) (replacement st)))
    | Some s =>
        if bool_decide (s ∈ ["permanent"; "temporary"; "see other"])
        then Ok (Some (directive
                         (if (s =? "temporary")%string then "temp"
                          else if (s =? "see other")%string then "seeother"
                          else "permanent")
                         (source st) (replacement st)))
        else Raise InvalidStatus
    end
  ∧ ∀ kw src repl,
      directive kw src repl
      = "RedirectMatch " +:+ kw +:+ " " +:+ dquote +:+ src +:+ dquote
        +:+ " " +:+ dquote +:+ repl +:+ dquote.
Proof.
  intros Hr. rewrite (process_rule_Ok _ _ _ _ _ Hr). intros Hnone Htop.
  split; [|done]. rewrite emit_survivor by done.
  apply resolve_inv in Hr as (st0 & Ht & Hc & -> & _).
  destruct (rule !! "status") as [s|].
  - unfold valid_status, apache_status.
    destruct (String.eqb_spec s "permanent") as [->|H1]; [done|].
    destruct (String.eqb_spec s "temporary") as [->|H2]; [done|].
    destruct (String.eqb_spec s "see other") as [->|H3]; [done|].
    cbn. rewrite bool_decide_eq_false_2; [done|].
    intros Hin. repeat (apply elem_of_cons in Hin as [->|Hin]; [done|]).
    by apply elem_of_nil in Hin.
  - by destruct Hc.
Qed.

Lemma status_and_directive_witness :
  process_rule "project" "OBI"
    (YMap {[ "path" := "/obo/obi/x"; "replacement" := "foo" ]})
  = Ok (Some (directive "temp" "(?i)^/obo/obi/x$" "foo")).
Proof.
  refine (proj1 (status_and_directive "project" "OBI" "path"
            (Locals "/obo/obi/x" "" "(?i)^/obo/obi/x$" "foo" "project" "temporary")
            {[ "path" := "/obo/obi/x"; "replacement" := "foo" ]} _ _ _)).
  - vm_compute. reflexivity.
  - vm_compute. discriminate.
  - vm_compute. discriminate.
Defined.

(** C8 as stated fails: a term_browser rule without a status field is not
    suppressed in top mode, and its status is see other, not temporary. *)
Lemma status_and_directive_counterexample :
  let rule : gmap string string := {[ "term_browser" := "ontobee" ]} in
  let src := "(?i)^/obo/GO_(\d+)$" in
  let repl := "http://www.ontobee.org/browser/rdf.php?o=GO&iri=http://purl.obolibrary.org/obo/GO_$1" in
  rule !! "status" = None
  ∧ process_rule "top" "GO" (YMap rule) = Ok (Some (directive "seeother" src repl))
  ∧ process_rule "top" "GO" (YMap rule) ≠ Ok (Some (directive "temp" src repl)).
Proof. vm_compute. repeat split; discriminate. Qed.

(** C9, as the code has it.  A rule that passes the checks of its type, its
    replacement and its idspace, and has a level field that is neither
    project nor top once lowercased, fails with InvalidLevel in every mode;
    a level that is project or top in any letter case never does. *)
Theorem invalid_level_error (processing_level idspace t l : string) (st : locals)
    (rule : gmap string string) :
  checked idspace rule = Ok (t, st) →
  rule !! "level" = Some l →
  (Py.lower l ≠ "project" → Py.lower l ≠ "top" →
   process_rule processing_level idspace (YMap rule) = Raise InvalidLevel)
  ∧ (Py.lower l = "project" ∨ Py.lower l = "top" →
     process_rule processing_level idspace (YMap rule) ≠ Raise InvalidLevel).
Proof.
  intros Hc Hl.
  pose proof Hc as [_ Hshape%checked_rule_level]%checked_Ok.
  rewrite process_rule_resolve. unfold resolve. rewrite Hc. cbn.
  rewrite determine_level_eq, Hl by done. unfold valid_level.
  split.
  - intros H1 H2.
    destruct (String.eqb_spec (Py.lower l) "project"); [done|].
    by destruct (String.eqb_spec (Py.lower l) "top").
  - intros Hv.
    assert ((Py.lower l =? "project")%string || (Py.lower l =? "top")%string
            = true) as ->
      by (destruct Hv as [-> | ->]; reflexivity).
    cbn. unfold emit, validate_status, getitem, contains.
    repeat (match goal with
            | |- context [if ?b then _ else _] => destruct b; cbn
            | |- context [match ?o with Some _ => _ | None => _ end] =>
                destruct o; cbn
            end; try done).
Qed.

Lemma invalid_level_error_witness :
  process_rule "top" "OBI"
    (YMap {[ "level" := "bar"; "path" := "/obo/obi/x"; "replacement" := "foo" ]})
  = Raise InvalidLevel
  ∧ process_rule "top" "OBI"
      (YMap {[ "level" := "Top"; "path" := "/obo/obi"; "replacement" := "foo" ]})
    ≠ Raise InvalidLevel.
Proof.
  split.
  - refine (proj1 (invalid_level_error "top" "OBI" "path" "bar"
              (Locals "/obo/obi/x" "" "(?i)^/obo/obi/x$" "foo" "top" "temporary")
              _ _ _) _ _).
    + vm_compute. reflexivity.
    + vm_compute. reflexivity.
    + vm_compute. discriminate.
    + vm_compute. discriminate.
  - refine (proj2 (invalid_level_error "top" "OBI" "path" "Top"
              (Locals "/obo/obi" "" "(?i)^/obo/obi$" "foo" "top" "temporary")
              _ _ _) _).
    + vm_compute. reflexivity.
    + vm_compute. reflexivity.
    + right. vm_compute. reflexivity.
Defined.

(** C9 as stated fails: the rule of test_invalid_level, whose level is bar,
    fails with NamespaceMismatch for its path, which is checked before the
    level; and a level written TOP is neither of the two strings, yet it is
    accepted. *)
Lemma invalid_level_error_counterexample :
  let rule : gmap string string :=
    {[ "regex" := "^/obo/obi$"; "replacement" := "foo"; "level" := "TOP" ]} in
  Tests.invalid_level !! "level" = Some "bar"
  ∧ process_rule "project" "OBI" (YMap Tests.invalid_level)
    = Raise NamespaceMismatch
  ∧ rule !! "level" = Some "TOP"
  ∧ process_rule "top" "OBI" (YMap rule)
    = Ok (Some (directive "temp" "^/obo/obi$" "foo")).
Proof. vm_compute. repeat split. Qed.

(** C10. A rule that passes the checks up to the level, and whose level is
    not the processing mode, gives None whatever its status field holds;
    InvalidStatus is raised only for a rule that passes those checks, is
    not filtered out by the mode and, in top mode, is allowed at top
    level. *)
Theorem mode_filter_before_status (processing_level idspace : string)
    (rule : gmap string string) :
  (∀ t st,
     processing_level = "project" ∨ processing_level = "top" →
     resolve idspace rule = Ok (t, st) →
     rule_level st ≠ processing_level →
     process_rule processing_level idspace (YMap rule) = Ok None)
  ∧ (process_rule processing_level idspace (YMap rule) = Raise InvalidStatus →
     ∃ t st s,
       resolve idspace rule = Ok (t, st)
       ∧ ¬ (processing_level = "project" ∧ rule_level st = "top")
       ∧ ¬ (processing_level = "top" ∧ rule_level st = "project")
       ∧ (processing_level = "top" → allowed_at_top idspace t rule)
       ∧ rule !! "status" = Some s
       ∧ s ∉ ["permanent"; "temporary"; "see other"]).
Proof.
  split.
  - intros t st Hm Hr Hne. rewrite (process_rule_Ok _ _ _ _ _ Hr).
    apply resolve_inv in Hr as (st0 & _ & _ & -> & Hlv).
    by apply emit_other_level.
  - rewrite process_rule_resolve.
    destruct (resolve idspace rule) as [[t st]|e] eqn:Hr; cbn;
      [|intros [= ->]; by apply resolve_not_invalid_status in Hr].
    intros (Hp & Htop & Hallow & s & Hs & Hbad)%emit_invalid_status.
    exists t, st, s. do 3 (split; [done|]). split; [|done].
    intros Hm. specialize (Hallow Hm).
    apply resolve_inv in Hr as (st0 & Ht & Hc & -> & _).
    by apply (top_allowed_true _ _ _ _ _ Ht Hc) in Hallow.
Qed.

Lemma mode_filter_before_status_witness :
  let rule : gmap string string :=
    {[ "path" := "/obo/obi/x"; "replacement" := "foo"; "status" := "gone" ]} in
  process_rule "top" "OBI" (YMap rule) = Ok None
  ∧ ∃ t st s,
      resolve "OBI" rule = Ok (t, st)
      ∧ ¬ ("project" = "project" ∧ rule_level st = "top")
      ∧ ¬ ("project" = "top" ∧ rule_level st = "project")
      ∧ ("project" = "top" → allowed_at_top "OBI" t rule)
      ∧ rule !! "status" = Some s
      ∧ s ∉ ["permanent"; "temporary"; "see other"].
Proof.
  split.
  - refine (proj1 (mode_filter_before_status "top" "OBI" _) "path"
              (Locals "/obo/obi/x" "" "(?i)^/obo/obi/x$" "foo" "project"
                 "temporary") _ _ _).
    + right. reflexivity.
    + vm_compute. reflexivity.
    + discriminate.
  - refine (proj2 (mode_filter_before_status "project" "OBI" _) _).
    vm_compute. reflexivity.
Defined.

(** ** More facts about strings *)

Section MoreStringFacts.

Lemma app_assoc (a b c : string) : (a +:+ b) +:+ c = a +:+ b +:+ c.
Proof. induction a as [|x a IH]; [done|]. by rewrite !append_cons, IH. Qed.

Lemma app_nil_r (a : string) : a +:+ "" = a.
Proof. induction a as [|x a IH]; [done|]. by rewrite append_cons, IH. Qed.

Lemma lower_char_idemp c : Py.lower_char (Py.lower_char c) = Py.lower_char c.
Proof. by destruct c as [[] [] [] [] [] [] [] []]. Qed.

Lemma lower_char_slash c : Py.lower_char c = "/"%char → c = "/"%char.
Proof. by destruct c as [[] [] [] [] [] [] [] []]. Qed.

Lemma lower_cons c s :
  Py.lower (String c s) = String (Py.lower_char c) (Py.lower s).
Proof. reflexivity. Qed.

Lemma lower_idemp s : Py.lower (Py.lower s) = Py.lower s.
Proof.
  induction s as [|c s IH]; [done|].
  by rewrite !lower_cons, lower_char_idemp, IH.
Qed.

Lemma lower_app a b : Py.lower (a +:+ b) = Py.lower a +:+ Py.lower b.
Proof.
  induction a as [|c a IH]; [done|].
  by rewrite append_cons, !lower_cons, append_cons, IH.
Qed.

Lemma base_url_lower idspace :
  Py.lower (base_url_of idspace) = base_url_of idspace.
Proof.
  unfold base_url_of. destruct (idspace =? "OBO")%string; [done|].
  by rewrite lower_app, lower_idemp.
Qed.

Lemma startswith_app a b : Py.startswith (a +:+ b) a = true.
Proof.
  unfold Py.startswith. induction a as [|c a IH]; [apply prefix_nil|].
  rewrite append_cons, prefix_cons. by destruct (Ascii.ascii_dec c c).
Qed.

Lemma startswith_app_cancel a b c :
  Py.startswith (a +:+ b) (a +:+ c) = Py.startswith b c.
Proof.
  unfold Py.startswith. induction a as [|x a IH]; [done|].
  rewrite !append_cons, prefix_cons. by destruct (Ascii.ascii_dec x x).
Qed.

Lemma startswith_trans a b c :
  Py.startswith a b = true → Py.startswith b c = true →
  Py.startswith a c = true.
Proof.
  unfold Py.startswith. revert a b.
  induction c as [|x c IH]; intros a b Hab Hbc; [apply prefix_nil|].
  destruct b as [|y b]; [done|]. destruct a as [|z a]; [done|].
  rewrite prefix_cons in *.
  destruct (Ascii.ascii_dec x y) as [->|]; [|done].
  destruct (Ascii.ascii_dec y z) as [->|]; [|done].
  destruct (Ascii.ascii_dec z z); [|done]. by apply (IH a b).
Qed.

Lemma startswith_self_longer a c b :
  Py.startswith a (a +:+ String c b) = false.
Proof.
  unfold Py.startswith. induction a as [|x a IH]; [done|].
  rewrite append_cons, prefix_cons. by destruct (Ascii.ascii_dec x x).
Qed.

Lemma string_forall_app f a b :
  string_forall f (a +:+ b) = string_forall f a && string_forall f b.
Proof.
  induction a as [|c a IH]; [done|].
  rewrite append_cons. cbn [string_forall]. by rewrite IH, andb_assoc.
Qed.

Lemma lstrip_spaces w s :
  string_forall Py.isspace w = true → Py.lstrip (w +:+ s) = Py.lstrip s.
Proof.
  induction w as [|c w IH]; [done|].
  cbn [string_forall]. intros [Hc Hw]%andb_prop.
  rewrite append_cons. cbn [Py.lstrip]. rewrite Hc. by apply IH.
Qed.

Lemma rstrip_all_spaces w :
  string_forall Py.isspace w = true → Py.rstrip w = "".
Proof.
  induction w as [|c w IH]; [done|].
  cbn [string_forall]. intros [Hc Hw]%andb_prop.
  cbn [Py.rstrip]. by rewrite (IH Hw), Hc.
Qed.

Lemma rstrip_spaces s w :
  string_forall Py.isspace w = true → Py.rstrip (s +:+ w) = Py.rstrip s.
Proof.
  intros Hw. induction s as [|c s IH]; [by apply rstrip_all_spaces|].
  rewrite append_cons. cbn [Py.rstrip]. by rewrite IH.
Qed.

Lemma lstrip_app_spaces s w :
  string_forall Py.isspace w = true →
  Py.lstrip (s +:+ w)
  = Py.lstrip s +:+ match Py.lstrip s with EmptyString => "" | _ => w end.
Proof.
  intros Hw. induction s as [|c s IH].
  - rewrite append_nil. cbn. rewrite <- (app_nil_r w) at 1.
    rewrite lstrip_spaces by done. reflexivity.
  - rewrite append_cons. cbn [Py.lstrip]. destruct (Py.isspace c); [done|].
    by rewrite append_cons.
Qed.

Lemma strip_spaces w1 s w2 :
  string_forall Py.isspace w1 = true → string_forall Py.isspace w2 = true →
  Py.strip (w1 +:+ s +:+ w2) = Py.strip s.
Proof.
  intros H1 H2. unfold Py.strip.
  rewrite lstrip_spaces, lstrip_app_spaces by done.
  destruct (Py.lstrip s); [done|]. by rewrite rstrip_spaces.
Qed.

Lemma strip_safe f s :
  (∀ c, f c = true → Py.isspace c = false) →
  string_forall f s = true → Py.strip s = s.
Proof.
  intros Hf. unfold Py.strip.
  assert (∀ s, string_forall f s = true → Py.rstrip s = s) as Hr.
  { clear s. induction s as [|c s IH]; [done|].
    cbn [string_forall]. intros [Hc Hs]%andb_prop.
    cbn [Py.rstrip]. rewrite (IH Hs), (Hf c Hc). by destruct s. }
  destruct s as [|c s]; [done|].
  intros H. pose proof H as [Hc Hs]%andb_prop.
  cbn [Py.lstrip]. rewrite (Hf c Hc). by apply Hr.
Qed.

End MoreStringFacts.

(** ** Further properties of [clean_source] *)

Lemma N_of_ascii_zero c : (N_of_ascii c =? 0)%N = true → c = "000"%char.
Proof.
  intros H%N.eqb_eq. rewrite <- (ascii_N_embedding c), H. reflexivity.
Qed.

Lemma escape_token_inj c1 c2 e1 e2 :
  escape_but_slash c1 +:+ e1 = escape_but_slash c2 +:+ e2 →
  c1 = c2 ∧ e1 = e2.
Proof.
  unfold escape_but_slash, Py.escape_char.
  destruct (Ascii.eqb_spec c1 "/") as [->|H1];
    destruct (Ascii.eqb_spec c2 "/") as [->|H2];
    try destruct (Py.alphanum c1) eqn:A1;
    try destruct (Py.alphanum c2) eqn:A2;
    try destruct (N_of_ascii c1 =? 0)%N eqn:Z1;
    try destruct (N_of_ascii c2 =? 0)%N eqn:Z2;
    rewrite ?append_cons, ?append_nil; intros E;
    try (injection E as ?; subst; try done; try congruence; fail);
    try discriminate E.
  - apply N_of_ascii_zero in Z1, Z2. injection E as ->. by subst.
Qed.

Lemma escaped_except_slashes_inj a b :
  escaped_except_slashes a = escaped_except_slashes b → a = b.
Proof.
  revert b. induction a as [|c a IH]; intros [|d b]; cbn [escaped_except_slashes].
  - done.
  - unfold escape_but_slash, Py.escape_char.
    destruct (Ascii.eqb d "/"), (Py.alphanum d), (N_of_ascii d =? 0)%N;
      rewrite ?append_cons; done.
  - unfold escape_but_slash, Py.escape_char.
    destruct (Ascii.eqb c "/"), (Py.alphanum c), (N_of_ascii c =? 0)%N;
      rewrite ?append_cons; done.
  - intros [-> E]%escape_token_inj. by rewrite (IH _ E).
Qed.

Lemma safe_char_not_space c :
  Py.alphanum c || Ascii.eqb c "/" = true → Py.isspace c = false.
Proof. by destruct c as [[] [] [] [] [] [] [] []]. Qed.

(** X1. Two URL strings get the same escaped pattern only if they are the
    same once stripped: the escaping loses nothing. *)
Theorem clean_source_injective (a b : string) :
  clean_source a = clean_source b → Py.strip a = Py.strip b.
Proof.
  rewrite !clean_source_spec. apply escaped_except_slashes_inj.
Qed.

Lemma clean_source_injective_witness :
  Py.strip " /obo/go.owl" = Py.strip "/obo/go.owl  ".
Proof. apply clean_source_injective. vm_compute. reflexivity. Defined.

(** X2. A URL string made of letters, digits, underscores and slashes only
    is its own pattern: nothing is stripped and nothing is escaped. *)
Theorem clean_source_plain (s : string) :
  string_forall (λ c, Py.alphanum c || Ascii.eqb c "/") s = true →
  clean_source s = s.
Proof.
  intros H. rewrite clean_source_spec.
  rewrite (strip_safe _ s safe_char_not_space H).
  induction s as [|c s IH]; [done|].
  cbn [string_forall] in H. apply andb_prop in H as [Hc Hs].
  cbn [escaped_except_slashes]. rewrite (IH Hs).
  unfold escape_but_slash, Py.escape_char.
  destruct (Ascii.eqb_spec c "/") as [->|_]; [done|].
  rewrite orb_false_r in Hc. by rewrite Hc.
Qed.

Lemma clean_source_plain_witness : clean_source "/obo/GO_" = "/obo/GO_".
Proof. apply clean_source_plain. vm_compute. reflexivity. Defined.

(** X3. Whitespace before and after a URL string does not change its
    pattern. *)
Theorem clean_source_whitespace (w1 s w2 : string) :
  string_forall Py.isspace w1 = true →
  string_forall Py.isspace w2 = true →
  clean_source (w1 +:+ s +:+ w2) = clean_source s.
Proof.
  intros H1 H2. unfold clean_source. by rewrite strip_spaces.
Qed.

Lemma clean_source_whitespace_witness :
  clean_source (" " +:+ "/obo/go.owl" +:+ (" " +:+ nl))
  = clean_source "/obo/go.owl".
Proof. apply clean_source_whitespace; vm_compute; reflexivity. Defined.

(** ** Further properties of [process_rule] *)

Lemma emit_raise processing_level idspace rule t st e :
  emit processing_level idspace rule t st = Raise e →
  (e = TopLevelPollution ∧ processing_level = "top") ∨ e = InvalidStatus.
Proof.
  unfold emit, validate_status, getitem, contains.
  destruct (_ && _); [done|]. destruct (_ && _); [done|].
  destruct (String.eqb_spec processing_level "top") as [->|_]; cbn.
  - destruct (top_allowed _ _ _ _); cbn; [|intros [= <-]; by left].
    destruct (rule !! "status"); [|done]. cbn.
    destruct (valid_status _); cbn; [done|]. intros [= <-]. by right.
  - destruct (rule !! "status"); [|done]. cbn.
    destruct (valid_status _); cbn; [done|]. intros [= <-]. by right.
Qed.

Lemma emit_same_level processing_level idspace rule t st :
  rule_level st = processing_level →
  processing_level = "project" ∨ processing_level = "top" →
  emit processing_level idspace rule t st ≠ Ok None.
Proof.
  intros Hl Hm. unfold emit, validate_status, getitem, contains. rewrite Hl.
  destruct Hm as [-> | ->]; cbn.
  - destruct (rule !! "status"); [|done]. cbn. by destruct (valid_status _).
  - destruct (top_allowed _ _ _ _); cbn; [|done].
    destruct (rule !! "status"); [|done]. cbn. by destruct (valid_status _).
Qed.

Lemma directive_not_empty kw src repl : (directive kw src repl =? "")%string = false.
Proof. unfold directive. by rewrite append_cons. Qed.

(** X4. A regex rule with a replacement and without a level field fails
    with RegexWithoutLevel, in every mode. *)
Theorem regex_needs_level (processing_level idspace r : string)
    (rule : gmap string string) :
  rule_types rule = ["regex"] →
  rule !! "replacement" = Some r →
  Py.strip r ≠ "" →
  rule !! "level" = None →
  process_rule processing_level idspace (YMap rule) = Raise RegexWithoutLevel.
Proof.
  intros Ht Hr Hne Hl.
  destruct (rule_types_single _ _ Ht) as (_ & [s Hs] & _).
  apply process_rule_raise, resolve_raise.
  rewrite (checked_regex _ _ s), Hr by done.
  apply contains_false in Hl. rewrite Hl.
  by destruct (String.eqb_spec (Py.strip r) "").
Qed.

Lemma regex_needs_level_witness :
  process_rule "top" "OBI" (YMap Tests.regex_without_level)
  = Raise RegexWithoutLevel.
Proof.
  refine (regex_needs_level "top" "OBI" "foo" Tests.regex_without_level _ _ _ _).
  - vm_compute. reflexivity.
  - vm_compute. reflexivity.
  - vm_compute. discriminate.
  - vm_compute. reflexivity.
Defined.

(** X5. A term_browser rule without a replacement whose value is not
    ontobee, in any letter case, fails with UnknownBrowser, in every mode. *)
Theorem unknown_term_browser (processing_level idspace b : string)
    (rule : gmap string string) :
  rule_types rule = ["term_browser"] →
  rule !! "term_browser" = Some b →
  rule !! "replacement" = None →
  Py.lower b ≠ "ontobee" →
  process_rule processing_level idspace (YMap rule) = Raise UnknownBrowser.
Proof.
  intros Ht Hb Hr Hne. apply process_rule_raise, resolve_raise.
  rewrite (checked_term_browser _ _ b), Hr by done.
  by destruct (String.eqb_spec (Py.lower b) "ontobee").
Qed.

Lemma unknown_term_browser_witness :
  process_rule "top" "OBI" (YMap Tests.invalid_term_browser)
  = Raise UnknownBrowser.
Proof.
  refine (unknown_term_browser "top" "OBI" "foo" Tests.invalid_term_browser
            _ _ _ _).
  - vm_compute. reflexivity.
  - vm_compute. reflexivity.
  - vm_compute. reflexivity.
  - vm_compute. discriminate.
Defined.

(** X6. A rule that passes the checks up to its level is suppressed in
    exactly one of the two modes: it gives None in project mode if and only
    if it does not give None in top mode. *)
Theorem suppressed_in_one_mode (idspace t : string) (st : locals)
    (rule : gmap string string) :
  resolve idspace rule = Ok (t, st) →
  process_rule "project" idspace (YMap rule) = Ok None
  ↔ process_rule "top" idspace (YMap rule) ≠ Ok None.
Proof.
  intros Hr. rewrite !(process_rule_Ok _ _ _ _ _ Hr).
  apply resolve_inv in Hr as (st0 & _ & _ & -> & [Hl|Hl]).
  - split.
    + intros H. by apply emit_same_level in H; cbn; auto.
    + intros H. exfalso. apply H.
      apply emit_other_level; cbn; rewrite ?Hl; by auto.
  - split.
    + intros _. apply emit_same_level; cbn; by auto.
    + intros _. apply emit_other_level; cbn; rewrite ?Hl; by auto.
Qed.

Lemma suppressed_in_one_mode_witness :
  process_rule "project" "OBI" (YMap Tests.level_crosstalk_top) = Ok None
  ↔ process_rule "top" "OBI" (YMap Tests.level_crosstalk_top) ≠ Ok None.
Proof.
  refine (suppressed_in_one_mode "OBI" "path"
            (Locals "/obo/obi" "" "(?i)^/obo/obi$" "foo" "top" "temporary")
            Tests.level_crosstalk_top _).
  vm_compute. reflexivity.
Defined.

(** X7. The errors of a rule do not depend on the mode, but for
    TopLevelPollution, which only top mode raises, and InvalidStatus, which
    a mode raises only for the rules it does not suppress. *)
Theorem errors_across_modes (idspace : string) (y : yaml) :
  (∀ m1 m2 e,
     e ≠ TopLevelPollution → e ≠ InvalidStatus →
     process_rule m1 idspace y = Raise e → process_rule m2 idspace y = Raise e)
  ∧ (∀ m, m ≠ "top" → process_rule m idspace y ≠ Raise TopLevelPollution).
Proof.
  destruct y as [rule|s]; [|by split].
  split.
  - intros m1 m2 e H1 H2. rewrite !process_rule_resolve.
    destruct (resolve idspace rule) as [[t st]|e'] eqn:Hr; cbn; [|done].
    intros [[-> _]| ->]%emit_raise; done.
  - intros m Hm. rewrite process_rule_resolve.
    destruct (resolve idspace rule) as [[t st]|e'] eqn:Hr; cbn.
    + intros [[_ ->]|[=]]%emit_raise. done.
    + intros [= ->]. revert Hr. unfold resolve.
      destruct (checked idspace rule) as [[t0 st0]|e] eqn:Hc; cbn.
      * apply checked_Ok in Hc as [_ Hc%checked_rule_level].
        rewrite determine_level_eq by done.
        destruct (rule !! "level"); [|done]. by destruct (valid_level _).
      * intros [= ->]. revert Hc. unfold checked, determine_type.
        destruct (rule_types rule) as [|t1 [|t2 l]]; cbn; try done.
        unfold validate_replacement, handle_rule, check_idspace, getitem.
        repeat (match goal with
                | |- context [if ?b then _ else _] => destruct b; cbn
                | |- context [match ?o with Some _ => _ | None => _ end] =>
                    destruct o; cbn
                end; try done).
Qed.

Lemma errors_across_modes_witness :
  process_rule "top" "OBI" (YMap Tests.idspace_crosstalk)
  = Raise NamespaceMismatch.
Proof.
  refine (proj1 (errors_across_modes "OBI" _) "project" "top" _ _ _ _).
  - discriminate.
  - discriminate.
  - vm_compute. reflexivity.
Defined.

(** X8. Whatever [process_rule] returns as a directive is the word
    RedirectMatch, one of the keywords permanent, temp and seeother, a
    source and a replacement; it is never the empty string, so the driver
    writes it. *)
Theorem directive_well_formed (processing_level idspace d : string) (y : yaml) :
  process_rule processing_level idspace y = Ok (Some d) →
  (∃ kw src repl,
     d = directive kw src repl ∧ kw ∈ ["permanent"; "temp"; "seeother"])
  ∧ truthy (Some d) = true.
Proof.
  destruct y as [rule|s]; [|done].
  intros (t & st & Hr & He)%process_rule_Some.
  pose proof He as Hd. rewrite emit_survivor in Hd by (by rewrite He).
  apply resolve_inv in Hr as (st0 & _ & Hc & -> & _).
  cbn [status source replacement set_rule_level] in Hd.
  assert (∃ kw, d = directive kw (source st0) (replacement st0)
                ∧ kw ∈ ["permanent"; "temp"; "seeother"]) as (kw & -> & Hkw).
  { revert Hd. destruct (rule !! "status") as [s|].
    - unfold valid_status.
      destruct (String.eqb_spec s "permanent") as [->|_]; cbn.
      { intros [= <-]. eexists. split; [reflexivity|].
        vm_compute. repeat constructor. }
      destruct (String.eqb_spec s "temporary") as [->|_]; cbn.
      { intros [= <-]. eexists. split; [reflexivity|].
        vm_compute. repeat constructor. }
      destruct (String.eqb_spec s "see other") as [->|_]; cbn; [|done].
      intros [= <-]. eexists. split; [reflexivity|].
      vm_compute. repeat constructor.
    - intros [= <-]. eexists. split; [reflexivity|].
      destruct Hc; vm_compute; repeat constructor. }
  split; [by eauto|]. cbn. by rewrite directive_not_empty.
Qed.

Lemma directive_well_formed_witness :
  truthy (Some (directive "temp" "(?i)^/obo/go\.owl$" "foo")) = true.
Proof.
  refine (proj2 (directive_well_formed "top" "GO" _
            (YMap {[ "path" := "/obo/go.owl"; "replacement" := "foo" ]}) _)).
  vm_compute. reflexivity.
Defined.

(** X9. A regex rule passes its regex and its replacement on as they are:
    nothing is stripped, escaped or appended. *)
Theorem regex_verbatim (processing_level idspace s r d : string)
    (rule : gmap string string) :
  rule !! "regex" = Some s →
  rule !! "replacement" = Some r →
  process_rule processing_level idspace (YMap rule) = Ok (Some d) →
  ∃ kw, d = directive kw s r.
Proof.
  intros Hs Hr (t & st & Hres & He)%process_rule_Some.
  apply emit_Some in He.
  apply resolve_inv in Hres as (st0 & Ht & Hc & -> & _).
  cbn [source replacement set_rule_level] in He.
  assert (t = "regex") as ->
    by (eapply variant_of_key; [done|repeat constructor|by eexists]).
  inversion Hc as [| |s' r' Hs' Hr' _ _ E|]; subst.
  rewrite Hs in Hs'. rewrite Hr in Hr'. injection Hs' as <-. injection Hr' as <-.
  by eexists.
Qed.

Lemma regex_verbatim_witness :
  ∃ kw, directive "permanent" " ^/obo/(go|GO)\.owl$ " "http://example.org/$1 "
        = directive kw " ^/obo/(go|GO)\.owl$ " "http://example.org/$1 ".
Proof.
  refine (regex_verbatim "top" "GO" _ _ _
            {[ "regex" := " ^/obo/(go|GO)\.owl$ ";
               "replacement" := "http://example.org/$1 ";
               "level" := "top"; "status" := "permanent" ]} _ _ _);
    vm_compute; reflexivity.
Defined.

Lemma process_rule_path processing_level idspace rule p r :
  rule_types rule = ["path"] → rule !! "path" = Some p →
  rule !! "replacement" = Some r → Py.strip r ≠ "" →
  Py.startswith (Py.lower p) (base_url_of idspace) = true →
  process_rule processing_level idspace (YMap rule)
  = determine_level (base_url_of idspace) "path" rule
      (Locals p "" ("(?i)^" +:+ clean_source p +:+ "$") r "top" "temporary")
    ≫= emit processing_level idspace rule "path".
Proof.
  intros Ht Hp Hr Hne Hs. rewrite process_rule_resolve. unfold resolve.
  rewrite (checked_path _ _ p), Hr, Hs by done.
  destruct (String.eqb_spec (Py.strip r) ""); [done|]. cbn.
  by destruct (determine_level _ _ _ _).
Qed.

Lemma process_rule_prefix processing_level idspace rule p r :
  rule_types rule = ["prefix"] → rule !! "prefix" = Some p →
  rule !! "replacement" = Some r → Py.strip r ≠ "" →
  Py.startswith (Py.lower p) (base_url_of idspace) = true →
  process_rule processing_level idspace (YMap rule)
  = determine_level (base_url_of idspace) "prefix" rule
      (Locals "" p ("(?i)^" +:+ clean_source p +:+ "(.*)$") (r +:+ "$1")
         "top" "temporary")
    ≫= emit processing_level idspace rule "prefix".
Proof.
  intros Ht Hp Hr Hne Hs. rewrite process_rule_resolve. unfold resolve.
  rewrite (checked_prefix _ _ p), Hr, Hs by done.
  destruct (String.eqb_spec (Py.strip r) ""); [done|]. cbn.
  by destruct (determine_level _ _ _ _).
Qed.

Lemma startswith_empty idspace :
  Py.startswith (Py.lower "") (base_url_of idspace +:+ "/") = false.
Proof. by destruct (base_url_head idspace) as [u ->]. Qed.

Lemma empty_not_base idspace x : ("" =? base_url_of idspace +:+ x)%string = false.
Proof. by destruct (base_url_head idspace) as [u ->]. Qed.

(** X10. The paths that the top level allows reach it: a path rule for the
    base URL of the idspace, or for the base URL followed by .owl or .obo,
    with a replacement and without level and status fields, is emitted in
    top mode as a temporary redirect and suppressed in project mode. *)
Theorem base_paths_reach_top (idspace p r : string) (rule : gmap string string) :
  rule_types rule = ["path"] →
  rule !! "path" = Some p →
  p = base_url_of idspace ∨ p = base_url_of idspace +:+ ".owl"
  ∨ p = base_url_of idspace +:+ ".obo" →
  rule !! "replacement" = Some r →
  Py.strip r ≠ "" →
  rule !! "level" = None →
  rule !! "status" = None →
  process_rule "top" idspace (YMap rule)
  = Ok (Some (directive "temp" ("(?i)^" +:+ clean_source p +:+ "$") r))
  ∧ process_rule "project" idspace (YMap rule) = Ok None.
Proof.
  intros Ht Hp Hshape Hr Hne Hl Hs.
  assert (Py.startswith (Py.lower p) (base_url_of idspace) = true
          ∧ Py.startswith (Py.lower p) (base_url_of idspace +:+ "/") = false
          ∧ top_allowed (base_url_of idspace) idspace "path"
              (Locals p "" ("(?i)^" +:+ clean_source p +:+ "$") r "top"
                 "temporary") = true) as (Hns & Hlv & Hallow).
  { unfold top_allowed. cbn [path prefix].
    destruct Hshape as [-> | [-> | ->]];
      rewrite ?lower_app, base_url_lower, ?String.eqb_refl, ?orb_true_r.
    - rewrite <- (app_nil_r (base_url_of idspace)) at 1.
      by rewrite startswith_app, startswith_self_longer.
    - by rewrite startswith_app, startswith_app_cancel.
    - by rewrite startswith_app, startswith_app_cancel. }
  rewrite !(process_rule_path _ _ _ p r) by done.
  rewrite determine_level_eq, Hl by done. cbn [path prefix].
  rewrite Hlv, startswith_empty. cbn.
  unfold emit, validate_status, contains.
  cbn [rule_level set_rule_level]. rewrite Hs.
  change (top_allowed _ _ _ _) with
    (top_allowed (base_url_of idspace) idspace "path"
       (Locals p "" ("(?i)^" +:+ clean_source p +:+ "$") r "top" "temporary")).
  by rewrite Hallow.
Qed.

Lemma base_paths_reach_top_witness :
  process_rule "top" "OBI"
    (YMap {[ "path" := "/obo/obi.owl"; "replacement" := "http://example.org/obi.owl" ]})
  = Ok (Some (directive "temp" ("(?i)^" +:+ clean_source "/obo/obi.owl" +:+ "$")
                "http://example.org/obi.owl")).
Proof.
  refine (proj1 (base_paths_reach_top "OBI" "/obo/obi.owl" _ _ _ _ _ _ _ _ _)).
  - vm_compute. reflexivity.
  - vm_compute. reflexivity.
  - right. left. vm_compute. reflexivity.
  - vm_compute. reflexivity.
  - vm_compute. discriminate.
  - vm_compute. reflexivity.
  - vm_compute. reflexivity.
Defined.

(** X11. The prefix for the terms of an idspace reaches the top level: for
    an idspace other than OBO, the prefix rule for /obo/, the idspace as
    given and an underscore, with a replacement and without level and
    status fields, is emitted in top mode as a temporary redirect that
    carries the rest of the URL over, and suppressed in project mode. *)
Theorem term_prefix_reaches_top (idspace r : string) (rule : gmap string string) :
  idspace ≠ "OBO" →
  rule_types rule = ["prefix"] →
  rule !! "prefix" = Some ("/obo/" +:+ idspace +:+ "_") →
  rule !! "replacement" = Some r →
  Py.strip r ≠ "" →
  rule !! "level" = None →
  rule !! "status" = None →
  process_rule "top" idspace (YMap rule)
  = Ok (Some (directive "temp"
                ("(?i)^" +:+ clean_source ("/obo/" +:+ idspace +:+ "_") +:+ "(.*)$")
                (r +:+ "$1")))
  ∧ process_rule "project" idspace (YMap rule) = Ok None.
Proof.
  intros Hobo Ht Hp Hr Hne Hl Hs.
  set (p := "/obo/" +:+ idspace +:+ "_") in *.
  assert (base_url_of idspace = "/obo/" +:+ Py.lower idspace) as Hbase.
  { unfold base_url_of. by destruct (String.eqb_spec idspace "OBO"). }
  assert (Py.lower p = "/obo/" +:+ Py.lower idspace +:+ "_") as Hlow
    by (unfold p; by rewrite !lower_app).
  assert (Py.startswith (Py.lower p) (base_url_of idspace) = true) as Hns.
  { rewrite Hlow, Hbase, startswith_app_cancel. apply startswith_app. }
  assert (Py.startswith (Py.lower p) (base_url_of idspace +:+ "/") = false)
    as Hlv.
  { by rewrite Hlow, Hbase, app_assoc, !startswith_app_cancel. }
  rewrite !(process_rule_prefix _ _ _ p r) by done.
  rewrite determine_level_eq, Hl by done. cbn [path prefix].
  rewrite Hlv, startswith_empty. cbn.
  unfold emit, validate_status, contains, top_allowed.
  cbn [rule_level set_rule_level path prefix]. rewrite Hs.
  fold p. by rewrite String.eqb_refl, orb_true_r.
Qed.

Lemma term_prefix_reaches_top_witness :
  process_rule "top" "GO"
    (YMap {[ "prefix" := "/obo/GO_"; "replacement" := "http://example.org/GO_" ]})
  = Ok (Some (directive "temp"
                ("(?i)^" +:+ clean_source ("/obo/" +:+ "GO" +:+ "_") +:+ "(.*)$")
                ("http://example.org/GO_" +:+ "$1"))).
Proof.
  refine (proj1 (term_prefix_reaches_top "GO" _ _ _ _ _ _ _ _ _)).
  - discriminate.
  - vm_compute. reflexivity.
  - vm_compute. reflexivity.
  - vm_compute. reflexivity.
  - vm_compute. discriminate.
  - vm_compute. reflexivity.
  - vm_compute. reflexivity.
Defined.

(** X12. The idspace check compares strings, not path segments: a path or
    prefix that is in the idspace of another base URL is let through
    whenever that base URL starts with the base URL of the idspace at hand. *)
Theorem idspace_check_is_a_string_prefix
    (processing_level idspace other t v r : string) (rule : gmap string string) :
  rule_types rule = [t] →
  t = "path" ∨ t = "prefix" →
  rule !! t = Some v →
  rule !! "replacement" = Some r →
  Py.strip r ≠ "" →
  Py.startswith (base_url_of other) (base_url_of idspace) = true →
  Py.startswith (Py.lower v) (base_url_of other) = true →
  process_rule processing_level idspace (YMap rule) ≠ Raise NamespaceMismatch.
Proof.
  intros Ht Hpp Hv Hr Hne Hbase Hs.
  pose proof (startswith_trans _ _ _ Hs Hbase) as Hns.
  destruct Hpp as [-> | ->];
    [rewrite (process_rule_path _ _ _ v r) by done
    |rewrite (process_rule_prefix _ _ _ v r) by done];
    rewrite determine_level_eq by done;
    (destruct (rule !! "level"); [destruct (valid_level _); [|done]|]); cbn;
    by intros [[[=] _]|[=]]%emit_raise.
Qed.

Lemma idspace_check_is_a_string_prefix_witness :
  process_rule "project" "GO"
    (YMap {[ "path" := "/obo/goat/horns.owl"; "replacement" := "foo" ]})
  ≠ Raise NamespaceMismatch.
Proof.
  refine (idspace_check_is_a_string_prefix "project" "GO" "GOAT" "path"
            "/obo/goat/horns.owl" "foo" _ _ _ _ _ _ _ _).
  - vm_compute. reflexivity.
  - left. reflexivity.
  - vm_compute. reflexivity.
  - vm_compute. reflexivity.
  - vm_compute. discriminate.
  - vm_compute. reflexivity.
  - vm_compute. reflexivity.
Defined.

(** X13. A path below the base URL of the idspace cannot be published at
    top level: with an explicit level top, top mode refuses it with
    TopLevelPollution. *)
Theorem project_paths_stay_out_of_top (idspace p r l : string)
    (rule : gmap string string) :
  rule_types rule = ["path"] →
  rule !! "path" = Some p →
  rule !! "replacement" = Some r →
  Py.strip r ≠ "" →
  Py.startswith (Py.lower p) (base_url_of idspace +:+ "/") = true →
  rule !! "level" = Some l →
  Py.lower l = "top" →
  process_rule "top" idspace (YMap rule) = Raise TopLevelPollution.
Proof.
  intros Ht Hp Hr Hne Hunder Hl Htop.
  assert (Py.startswith (Py.lower p) (base_url_of idspace) = true) as Hns
    by (eapply startswith_trans; [done|apply startswith_app]).
  rewrite (process_rule_path _ _ _ p r) by done.
  rewrite determine_level_eq, Hl, Htop by done. cbn.
  unfold emit, top_allowed. cbn [rule_level set_rule_level path prefix]. cbn.
  rewrite !append_cons. cbn. rewrite orb_false_r.
  assert (∀ x, Py.lower x = x →
            Py.startswith x "/" = false →
            (p =? base_url_of idspace +:+ x)%string = false) as Hnot.
  { intros x Hx Hslash. apply String.eqb_neq. intros ->.
    rewrite lower_app, base_url_lower, Hx, startswith_app_cancel in Hunder.
    congruence. }
  rewrite <- (app_nil_r (base_url_of idspace)) at 1.
  by rewrite !Hnot.
Qed.

Lemma project_paths_stay_out_of_top_witness :
  process_rule "top" "OBI"
    (YMap {[ "path" := "/obo/obi/dev.owl"; "replacement" := "foo";
             "level" := "top" ]})
  = Raise TopLevelPollution.
Proof.
  refine (project_paths_stay_out_of_top "OBI" "/obo/obi/dev.owl" "foo" "top"
            _ _ _ _ _ _ _ _).
  - vm_compute. reflexivity.
  - vm_compute. reflexivity.
  - vm_compute. reflexivity.
  - vm_compute. discriminate.
  - vm_compute. reflexivity.
  - vm_compute. reflexivity.
  - vm_compute. reflexivity.
Defined.

(** X14. A path or prefix that does not begin with a slash fails with
    NamespaceMismatch whatever the idspace, leading whitespace included:
    the idspace check reads the value as it is, not stripped. *)
Theorem leading_slash_required (processing_level idspace t v r : string)
    (rule : gmap string string) :
  rule_types rule = [t] →
  t = "path" ∨ t = "prefix" →
  rule !! t = Some v →
  rule !! "replacement" = Some r →
  Py.strip r ≠ "" →
  Py.startswith v "/" = false →
  process_rule processing_level idspace (YMap rule) = Raise NamespaceMismatch.
Proof.
  intros Ht Hpp Hv Hr Hne Hslash.
  assert (Py.startswith (Py.lower v) (base_url_of idspace) = false) as Hs.
  { destruct (base_url_head idspace) as [u ->]. unfold Py.startswith in *.
    destruct v as [|c v]; [done|]. rewrite lower_cons, prefix_cons.
    destruct (Ascii.ascii_dec "/" (Py.lower_char c)) as [E|]; [|done].
    symmetry in E. apply lower_char_slash in E as ->.
    rewrite prefix_cons, prefix_nil in Hslash.
    by destruct (Ascii.ascii_dec "/" "/"). }
  apply process_rule_raise, resolve_raise.
  destruct Hpp as [-> | ->];
    [rewrite (checked_path _ _ v) by done|rewrite (checked_prefix _ _ v) by done];
    rewrite Hr, Hs; by destruct (String.eqb_spec (Py.strip r) "").
Qed.

Lemma leading_slash_required_witness :
  process_rule "project" "OBI"
    (YMap {[ "path" := " /obo/obi/x"; "replacement" := "foo" ]})
  = Raise NamespaceMismatch.
Proof.
  refine (leading_slash_required "project" "OBI" "path" " /obo/obi/x" "foo"
            _ _ _ _ _ _ _).
  - vm_compute. reflexivity.
  - left. reflexivity.
  - vm_compute. reflexivity.
  - vm_compute. reflexivity.
  - vm_compute. discriminate.
  - vm_compute. reflexivity.
Defined.

(** X15. [process_rule] reads the fields path, prefix, regex, term_browser,
    replacement, level and status only: any other field of a rule, such as
    tests, changes nothing. *)
Theorem other_fields_ignored (processing_level idspace k v : string)
    (rule : gmap string string) :
  k ∉ known_fields →
  process_rule processing_level idspace (YMap (<[k:=v]> rule))
  = process_rule processing_level idspace (YMap rule).
Proof.
  intros Hk.
  assert (∀ f, f ∈ known_fields → <[k:=v]> rule !! f = rule !! f) as Hf.
  { intros f Hin. apply lookup_insert_ne. by intros ->. }
  unfold process_rule, resolve, checked, emit, determine_type, rule_types,
    validate_replacement, handle_rule, determine_level, validate_status,
    contains, getitem.
  rewrite !(Hf "path"), !(Hf "prefix"), !(Hf "regex"), !(Hf "term_browser"),
    !(Hf "replacement"), !(Hf "level"), !(Hf "status")
    by (unfold known_fields; repeat constructor).
  reflexivity.
Qed.

Lemma other_fields_ignored_witness :
  process_rule "top" "OBI"
    (YMap (<["tests" := "from: /obo/obi"]> Tests.top_level_pollution))
  = process_rule "top" "OBI" (YMap Tests.top_level_pollution).
Proof.
  apply other_fields_ignored. vm_compute.
  intros H. repeat (apply elem_of_cons in H as [H|H]; [discriminate H|]).
  by apply elem_of_nil in H.
Defined.

(** ** Properties of the driver *)

Lemma process_rule_Some_not_empty mode idspace y d :
  process_rule mode idspace y = Ok (Some d) → (d =? "")%string = false.
Proof.
  destruct y as [rule|s]; [|done].
  intros (t & st & _ & ->%emit_Some)%process_rule_Some.
  apply directive_not_empty.
Qed.

Lemma write_rules_returns mode idspace rules written :
  Forall (returns mode idspace) rules →
  write_rules mode idspace rules written
  = (written +:+ lines (emitted mode idspace rules), None).
Proof.
  intros H. revert written.
  induction H as [|y rules [result Hy] _ IH]; intros written.
  - by rewrite app_nil_r.
  - cbn [write_rules emitted omap list_omap]. rewrite Hy, IH.
    destruct result as [d|]; cbn [truthy]; [|done].
    rewrite (process_rule_Some_not_empty _ _ _ _ Hy). cbn.
    by rewrite !app_assoc.
Qed.

Lemma write_rules_raises mode idspace before y after e written :
  Forall (returns mode idspace) before →
  process_rule mode idspace y = Raise e →
  write_rules mode idspace (before ++ y :: after) written
  = (written +:+ lines (emitted mode idspace before), Some (RuleError e)).
Proof.
  intros H Hy. revert written.
  induction H as [|y' rules [result Hy'] _ IH]; intros written.
  - cbn. by rewrite Hy, app_nil_r.
  - cbn [app write_rules emitted omap list_omap]. rewrite Hy', IH.
    destruct result as [d|]; cbn [truthy]; [|done].
    rewrite (process_rule_Some_not_empty _ _ _ _ Hy'). cbn.
    by rewrite !app_assoc.
Qed.

(** The rules up to the first that raises, if any. *)
Lemma rules_split mode idspace rules :
  Forall (returns mode idspace) rules
  ∨ ∃ (before : list yaml) y after e,
      rules = (before ++ y :: after)%list
      ∧ Forall (returns mode idspace) before
      ∧ process_rule mode idspace y = Raise e.
Proof.
  induction rules as [|y rules IH]; [by left|].
  destruct (process_rule mode idspace y) as [result|e] eqn:Hy.
  - destruct IH as [IH|(before & y' & after & e & -> & Hb & Hy')].
    + left. constructor; [by exists result|done].
    + right. exists (y :: before), y', after, e.
      split; [done|]. split; [|done]. constructor; [by exists result|done].
  - right. by exists [], y, rules, e.
Qed.

Lemma write_rules_shape mode idspace rules written :
  ∃ body o,
    write_rules mode idspace rules written = (written +:+ body, o)
    ∧ (o = None
       ∨ ∃ y e, y ∈ rules ∧ process_rule mode idspace y = Raise e
                ∧ o = Some (RuleError e)).
Proof.
  destruct (rules_split mode idspace rules)
    as [H|(before & y & after & e & -> & Hb & Hy)].
  - rewrite write_rules_returns by done. eexists _, _. split; [done|by left].
  - rewrite (write_rules_raises _ _ _ _ _ e) by done.
    eexists _, _. split; [done|]. right. exists y, e.
    split; [|done]. apply elem_of_app. right. by left.
Qed.

Lemma templates_not_empty name idspace body :
  project_template name +:+ body ≠ "" ∧ top_template idspace +:+ body ≠ "".
Proof.
  unfold project_template, top_template. by rewrite !append_cons.
Qed.

(** X16. [main] fails with NoRulesFound exactly when the document has no
    list under purl_rules, whatever the mode, and with InvalidMode exactly
    when it has one and the lowercased mode is neither project nor top; in
    these two cases, and in no other, nothing is written. *)
Theorem failures_before_header (mode_arg yaml_file_name : string)
    (document : gmap string node) :
  let run := main mode_arg yaml_file_name document in
  (snd run = Some NoRulesFound
   ↔ ∀ rules, document !! "purl_rules" ≠ Some (NList rules))
  ∧ (snd run = Some InvalidMode
     ↔ (∃ rules, document !! "purl_rules" = Some (NList rules))
       ∧ Py.lower mode_arg ≠ "project" ∧ Py.lower mode_arg ≠ "top")
  ∧ (fst run = ""
     ↔ snd run = Some NoRulesFound ∨ snd run = Some InvalidMode).
Proof.
  unfold main.
  destruct (document !! "purl_rules") as [[rules|s]|]; cbn;
    [|naive_solver..].
  destruct (String.eqb_spec (Py.lower mode_arg) "project") as [Hp|Hp].
  { destruct (write_rules_shape (Py.lower mode_arg) (idspace_of yaml_file_name)
                rules (project_template yaml_file_name))
      as (body & o & -> & Ho).
    pose proof (proj1 (templates_not_empty yaml_file_name "" body)).
    cbn. destruct Ho as [->|(y & e & _ & _ & ->)]; naive_solver. }
  destruct (String.eqb_spec (Py.lower mode_arg) "top") as [Ht|Ht];
    [|cbn; naive_solver].
  destruct (write_rules_shape (Py.lower mode_arg) (idspace_of yaml_file_name)
              rules (top_template (idspace_of yaml_file_name)))
    as (body & o & -> & Ho).
  pose proof (proj2 (templates_not_empty "" (idspace_of yaml_file_name) body)).
  pose proof (proj2 (templates_not_empty "" (idspace_of yaml_file_name)
                       (body +:+ nl))) as H'.
  rewrite <- app_assoc in H'.
  destruct Ho as [->|(y & e & _ & _ & ->)]; cbn; naive_solver.
Qed.

(** X17. The mode argument is read without regard to letter case: a run
    is the run of the lowercased mode. *)
Theorem mode_case_insensitive (mode_arg yaml_file_name : string)
    (document : gmap string node) :
  main mode_arg yaml_file_name document
  = main (Py.lower mode_arg) yaml_file_name document.
Proof. unfold main. by rewrite lower_idemp. Qed.

(** X18. A run that ends without an exception has processed every rule and
    has written the header of its mode, then one line for each rule that
    the mode does not suppress, in the order of the document, then, in top
    mode only, an empty line. *)
Theorem successful_run (mode_arg yaml_file_name : string)
    (document : gmap string node) (rules : list yaml) :
  document !! "purl_rules" = Some (NList rules) →
  snd (main mode_arg yaml_file_name document) = None →
  let idspace := idspace_of yaml_file_name in
  Forall (returns (Py.lower mode_arg) idspace) rules
  ∧ ((Py.lower mode_arg = "project"
      ∧ fst (main mode_arg yaml_file_name document)
        = project_template yaml_file_name
          +:+ lines (emitted "project" idspace rules))
     ∨ (Py.lower mode_arg = "top"
        ∧ fst (main mode_arg yaml_file_name document)
          = top_template idspace +:+ lines (emitted "top" idspace rules)
            +:+ nl)).
Proof.
  intros Hd Hnone idspace. subst idspace. revert Hnone.
  unfold main. rewrite Hd.
  destruct (rules_split (Py.lower mode_arg) (idspace_of yaml_file_name) rules)
    as [H|(before & y & after & e & -> & Hb & Hy)].
  - split; [done|].
    destruct (String.eqb_spec (Py.lower mode_arg) "project") as [Hp|Hp].
    { left. split; [done|]. rewrite write_rules_returns by done.
      by rewrite Hp. }
    destruct (String.eqb_spec (Py.lower mode_arg) "top") as [Ht|Ht]; [|done].
    right. split; [done|]. rewrite write_rules_returns by done. cbn.
    by rewrite Ht, app_assoc.
  - destruct (Py.lower mode_arg =? "project")%string.
    { by rewrite (write_rules_raises _ _ _ _ _ e). }
    destruct (Py.lower mode_arg =? "top")%string; [|done].
    by rewrite (write_rules_raises _ _ _ _ _ e).
Qed.

Lemma successful_run_witness :
  let document : gmap string node :=
    {[ "purl_rules" :=
         NList [YMap {[ "path" := "/obo/obi"; "replacement" := "http://obi.org" ]};
                YMap {[ "path" := "/obo/obi/x"; "replacement" := "http://obi.org/x" ]};
                YMap {[ "term_browser" := "ontobee" ]}] ]} in
  fst (main "TOP" "config/OBI.yml" document)
  = "# Top-level rules for OBI" +:+ nl
    +:+ directive "temp" "(?i)^/obo/obi$" "http://obi.org" +:+ nl
    +:+ directive "seeother" "(?i)^/obo/OBI_(\d+)$"
          "http://www.ontobee.org/browser/rdf.php?o=OBI&iri=http://purl.obolibrary.org/obo/OBI_$1"
    +:+ nl +:+ nl.
Proof.
  intros document.
  destruct (successful_run "TOP" "config/OBI.yml" document _ eq_refl)
    as [_ [[Hm _]|[_ ->]]].
  - vm_compute. reflexivity.
  - vm_compute in Hm. discriminate Hm.
  - vm_compute. reflexivity.
Defined.

(** X19. The first rule that raises ends the run with its exception: the
    header and the lines of the rules before it have been written, nothing
    of the rules after it is looked at, and top mode does not write its
    closing empty line. *)
Theorem first_failure_ends_run (mode_arg yaml_file_name : string)
    (document : gmap string node) (before after : list yaml) (y : yaml)
    (e : exn) :
  let mode := Py.lower mode_arg in
  let idspace := idspace_of yaml_file_name in
  mode = "project" ∨ mode = "top" →
  document !! "purl_rules" = Some (NList (before ++ y :: after)) →
  Forall (returns mode idspace) before →
  process_rule mode idspace y = Raise e →
  main mode_arg yaml_file_name document
  = ((if (mode =? "project")%string then project_template yaml_file_name
      else top_template idspace)
     +:+ lines (emitted mode idspace before),
     Some (RuleError e)).
Proof.
  intros mode idspace Hm Hd Hb Hy. subst mode idspace.
  unfold main. rewrite Hd.
  destruct Hm as [Hm|Hm]; rewrite Hm in *; cbn;
    by rewrite (write_rules_raises _ _ _ _ _ e).
Qed.

Lemma first_failure_ends_run_witness :
  let document : gmap string node :=
    {[ "purl_rules" :=
         NList [YMap {[ "path" := "/obo/obi/x"; "replacement" := "http://obi.org/x" ]};
                YMap Tests.idspace_crosstalk;
                YScalar "never read"] ]} in
  main "project" "OBI.yml" document
  = (project_template "OBI.yml"
     +:+ directive "temp" "(?i)^/obo/obi/x$" "http://obi.org/x" +:+ nl,
     Some (RuleError NamespaceMismatch)).
Proof.
  intros document.
  rewrite (first_failure_ends_run "project" "OBI.yml" document
             [YMap {[ "path" := "/obo/obi/x"; "replacement" := "http://obi.org/x" ]}]
             [YScalar "never read"] (YMap Tests.idspace_crosstalk)
             NamespaceMismatch).
  - vm_compute. reflexivity.
  - left. vm_compute. reflexivity.
  - vm_compute. reflexivity.
  - constructor; [|constructor]. eexists. vm_compute. reflexivity.
  - vm_compute. reflexivity.
Defined.

(** X20. Every lookup of a field is guarded by a test that the field is
    there: neither [process_rule] nor a run of [main] ends with a KeyError. *)
Theorem lookups_are_guarded (k : string) :
  (∀ mode idspace y, process_rule mode idspace y ≠ Raise (KeyError k))
  ∧ (∀ mode_arg yaml_file_name document,
       snd (main mode_arg yaml_file_name document)
       ≠ Some (RuleError (KeyError k))).
Proof.
  split; [intros; apply process_rule_no_KeyError|].
  intros mode_arg yaml_file_name document. unfold main.
  destruct (document !! "purl_rules") as [[rules|s]|]; [|done..].
  destruct (Py.lower mode_arg =? "project")%string;
    [|destruct (Py.lower mode_arg =? "top")%string; [|done]];
    match goal with
    | |- context [write_rules ?m ?i ?r ?w] =>
        destruct (write_rules_shape m i r w) as (body & o & -> & Ho)
    end;
    (destruct Ho as [->|(y & e & _ & Hy & ->)]; cbn; [done|]);
    intros [= ->]; by apply process_rule_no_KeyError in Hy.
Qed.

Lemma string_forall_impl (f g : ascii → bool) s :
  (∀ c, f c = true → g c = true) →
  string_forall f s = true → string_forall g s = true.
Proof.
  intros Hfg. induction s as [|c s IH]; [done|].
  cbn [string_forall]. intros [Hc Hs]%andb_prop.
  by rewrite (Hfg c Hc), (IH Hs).
Qed.

Lemma rsplit_none c s :
  string_forall (λ x, negb (Ascii.eqb x c)) s = true → OsPath.rsplit c s = None.
Proof.
  induction s as [|x s IH]; [done|].
  cbn [string_forall OsPath.rsplit]. intros [Hx Hs]%andb_prop.
  rewrite (IH Hs). by destruct (Ascii.eqb x c).
Qed.

Lemma rsplit_last c a b :
  string_forall (λ x, negb (Ascii.eqb x c)) b = true →
  OsPath.rsplit c (a +:+ String c b) = Some (a, b).
Proof.
  intros Hb. induction a as [|x a IH].
  - rewrite append_nil. cbn [OsPath.rsplit].
    by rewrite (rsplit_none _ _ Hb), Ascii.eqb_refl.
  - rewrite append_cons. cbn [OsPath.rsplit]. by rewrite IH.
Qed.

(** X21. The idspace is the name of the YAML file without its directories
    and without its last extension, in the letter case of the file name:
    for a file name made of a stem that is more than dots and an extension
    without a dot, with or without a directory before it, the idspace is
    the stem. *)
Theorem idspace_from_file_name (dir stem ext : string) :
  string_forall (λ c, negb (Ascii.eqb c "/")) stem = true →
  OsPath.all_dots stem = false →
  string_forall (λ c, negb (Ascii.eqb c "/") && negb (Ascii.eqb c ".")) ext
  = true →
  idspace_of (dir +:+ "/" +:+ stem +:+ "." +:+ ext) = stem
  ∧ idspace_of (stem +:+ "." +:+ ext) = stem.
Proof.
  intros Hstem Hdots Hext.
  assert (string_forall (λ c, negb (Ascii.eqb c "/")) ext = true) as Hext1
    by (refine (string_forall_impl _ _ _ _ Hext); by intros c [? _]%andb_prop).
  assert (string_forall (λ c, negb (Ascii.eqb c ".")) ext = true) as Hext2
    by (refine (string_forall_impl _ _ _ _ Hext); by intros c [_ ?]%andb_prop).
  assert (string_forall (λ c, negb (Ascii.eqb c "/")) (stem +:+ "." +:+ ext)
          = true) as Hname
    by (rewrite !string_forall_app, Hstem, Hext1; reflexivity).
  assert (fst (OsPath.splitext (stem +:+ "." +:+ ext)) = stem) as Hsplit.
  { unfold OsPath.splitext. rewrite (rsplit_none "/" _ Hname).
    change ("." +:+ ext) with (String "." ext).
    by rewrite (rsplit_last "." stem ext Hext2), Hdots. }
  unfold idspace_of, OsPath.basename. split.
  - change ("/" +:+ stem +:+ "." +:+ ext)
      with (String "/" (stem +:+ "." +:+ ext)).
    by rewrite (rsplit_last "/" dir _ Hname).
  - by rewrite (rsplit_none "/" _ Hname).
Qed.

Lemma idspace_from_file_name_witness :
  idspace_of ("../config" +:+ "/" +:+ "OBI" +:+ "." +:+ "yml") = "OBI"
  ∧ idspace_of ("OBI" +:+ "." +:+ "yml") = "OBI".
Proof. apply idspace_from_file_name; vm_compute; reflexivity. Defined.

(** ** Rules that are emitted *)

(** X22. A path or prefix below the base URL of the idspace, with a
    replacement and without level and status fields, is a project rule: it
    is emitted in project mode as a temporary redirect, a prefix with the
    group and its reference added, and suppressed in top mode. *)
Theorem project_rules_are_emitted (idspace t p r : string)
    (rule : gmap string string) :
  rule_types rule = [t] →
  t = "path" ∨ t = "prefix" →
  rule !! t = Some p →
  rule !! "replacement" = Some r →
  Py.strip r ≠ "" →
  Py.startswith (Py.lower p) (base_url_of idspace +:+ "/") = true →
  rule !! "level" = None →
  rule !! "status" = None →
  process_rule "project" idspace (YMap rule)
  = Ok (Some (if (t =? "path")%string
              then directive "temp" ("(?i)^" +:+ clean_source p +:+ "$") r
              else directive "temp" ("(?i)^" +:+ clean_source p +:+ "(.*)$")
                     (r +:+ "$1")))
  ∧ process_rule "top" idspace (YMap rule) = Ok None.
Proof.
  intros Ht Hpp Hp Hr Hne Hunder Hl Hs.
  assert (Py.startswith (Py.lower p) (base_url_of idspace) = true) as Hns
    by (eapply startswith_trans; [done|apply startswith_app]).
  destruct Hpp as [-> | ->];
    [rewrite !(process_rule_path _ _ _ p r) by done
    |rewrite !(process_rule_prefix _ _ _ p r) by done];
    rewrite determine_level_eq, Hl by done; cbn [path prefix];
    rewrite Hunder, ?orb_true_r; cbn;
    unfold emit, validate_status, contains;
    cbn [rule_level set_rule_level]; by rewrite Hs.
Qed.

Lemma project_rules_are_emitted_witness :
  process_rule "project" "OBI"
    (YMap {[ "prefix" := "/obo/obi/wiki/"; "replacement" := "http://obi.org/wiki/" ]})
  = Ok (Some (directive "temp" ("(?i)^" +:+ clean_source "/obo/obi/wiki/" +:+ "(.*)$")
                ("http://obi.org/wiki/" +:+ "$1"))).
Proof.
  refine (proj1 (project_rules_are_emitted "OBI" "prefix" "/obo/obi/wiki/"
                   "http://obi.org/wiki/" _ _ _ _ _ _ _ _ _)).
  - vm_compute. reflexivity.
  - right. reflexivity.
  - vm_compute. reflexivity.
  - vm_compute. reflexivity.
  - vm_compute. discriminate.
  - vm_compute. reflexivity.
  - vm_compute. reflexivity.
  - vm_compute. reflexivity.
Defined.

(** X23. A regex rule with a replacement, a level and no status field is
    emitted as a temporary redirect in the mode that its lowercased level
    names, whatever the regex and the idspace, and suppressed in the other
    mode. *)
Theorem regex_rules_follow_their_level (idspace s r l : string)
    (rule : gmap string string) :
  rule_types rule = ["regex"] →
  rule !! "regex" = Some s →
  rule !! "replacement" = Some r →
  Py.strip r ≠ "" →
  rule !! "level" = Some l →
  Py.lower l = "project" ∨ Py.lower l = "top" →
  rule !! "status" = None →
  process_rule (Py.lower l) idspace (YMap rule)
  = Ok (Some (directive "temp" s r))
  ∧ process_rule (if (Py.lower l =? "top")%string then "project" else "top")
      idspace (YMap rule)
    = Ok None.
Proof.
  intros Ht Hs Hr Hne Hl Hv Hst.
  assert (∀ mode, process_rule mode idspace (YMap rule)
                  = emit mode idspace rule "regex"
                      (set_rule_level (Py.lower l)
                         (Locals "" "" s r "top" "temporary"))) as Hp.
  { intros mode. rewrite process_rule_resolve. unfold resolve.
    rewrite (checked_regex _ _ s), Hr by done.
    assert (contains "level" rule = true) as ->
      by (apply contains_true; by eexists).
    destruct (String.eqb_spec (Py.strip r) ""); [done|]. cbn.
    rewrite determine_level_eq, Hl by done.
    by destruct Hv as [-> | ->]. }
  rewrite !Hp. unfold emit, validate_status, contains, top_allowed.
  cbn [rule_level set_rule_level]. rewrite Hst.
  by destruct Hv as [-> | ->].
Qed.

Lemma regex_rules_follow_their_level_witness :
  process_rule (Py.lower "Top") "OBI"
    (YMap {[ "regex" := "^/obo/(obi|OBI)$"; "replacement" := "http://obi.org";
             "level" := "Top" ]})
  = Ok (Some (directive "temp" "^/obo/(obi|OBI)$" "http://obi.org")).
Proof.
  refine (proj1 (regex_rules_follow_their_level "OBI" _ _ "Top" _ _ _ _ _ _ _ _)).
  - vm_compute. reflexivity.
  - vm_compute. reflexivity.
  - vm_compute. reflexivity.
  - vm_compute. discriminate.
  - vm_compute. reflexivity.
  - right. vm_compute. reflexivity.
  - vm_compute. reflexivity.
Defined.

Lemma failures_before_header_witness :
  snd (main "both" "OBI.yml" {[ "purl_rules" := NList [] ]}) = Some InvalidMode
  ∧ snd (main "top" "OBI.yml" {[ "purl_rules" := NOther "none" ]})
    = Some NoRulesFound.
Proof.
  split.
  - apply (proj2 (proj1 (proj2 (failures_before_header "both" "OBI.yml" _)))).
    split; [by exists []|]. split; vm_compute; discriminate.
  - apply (proj2 (proj1 (failures_before_header "top" "OBI.yml" _))).
    intros rules. vm_compute. discriminate.
Defined.

Lemma lookups_are_guarded_witness :
  process_rule "top" "OBI" (YMap Tests.missing_type) ≠ Raise (KeyError "path").
Proof. apply (proj1 (lookups_are_guarded "path")). Defined.

(** ** Paths and prefixes on either [re.escape] *)

#[global] Arguments clean_source_on : simpl never.

Lemma process_rule_on_before37 processing_level idspace y :
  process_rule_on Before37 processing_level idspace y
  = process_rule processing_level idspace y.
Proof. reflexivity. Qed.

Lemma clean_source_on_from37 s :
  clean_source_on From37 s = Py37.clean_source37 s.
Proof. reflexivity. Qed.

Lemma lstrip_spec p :
  ∃ w, p = w +:+ Py.lstrip p
       ∧ string_forall Py.isspace w = true
       ∧ starts_with_space (Py.lstrip p) = false.
Proof.
  induction p as [|c p (w & Hp & Hw & Hs)]; [by exists ""|].
  cbn [Py.lstrip]. destruct (Py.isspace c) eqn:Hc.
  - exists (String c w). rewrite append_cons, <- Hp. cbn [string_forall].
    by rewrite Hc, Hw.
  - by exists "".
Qed.

Lemma rstrip_spec s :
  ∃ w, s = Py.rstrip s +:+ w
       ∧ string_forall Py.isspace w = true
       ∧ ends_with_space (Py.rstrip s) = false
       ∧ (starts_with_space s = false →
          starts_with_space (Py.rstrip s) = false).
Proof.
  induction s as [|c s (w & Hs & Hw & He & _)]; [by exists ""|].
  cbn [Py.rstrip]. destruct (Py.rstrip s) as [|x r] eqn:Hr.
  - rewrite append_nil in Hs. subst w.
    destruct (Py.isspace c) eqn:Hc.
    + exists (String c s). cbn [string_forall starts_with_space].
      by rewrite Hc, Hw.
    + exists s. cbn [ends_with_space starts_with_space]. by rewrite Hc.
  - exists w. rewrite !append_cons, <- append_cons, <- Hs.
    repeat split; try done.
Qed.

(** [strip] takes whitespace off both ends, and all of it. *)
Lemma strip_spec p :
  ∃ w1 w2, p = w1 +:+ Py.strip p +:+ w2
           ∧ string_forall Py.isspace w1 = true
           ∧ string_forall Py.isspace w2 = true
           ∧ starts_with_space (Py.strip p) = false
           ∧ ends_with_space (Py.strip p) = false.
Proof.
  destruct (lstrip_spec p) as (w1 & Hp & Hw1 & Hs).
  destruct (rstrip_spec (Py.lstrip p)) as (w2 & Hl & Hw2 & He & Hs').
  exists w1, w2. unfold Py.strip. rewrite <- Hl.
  repeat split; [done..|by apply Hs'|done].
Qed.

Lemma escaped_except_slashes_before37 s :
  escaped_except_slashes_on Before37 s = escaped_except_slashes s.
Proof. induction s as [|c s IH]; [done|]. cbn. by rewrite IH. Qed.

Lemma re_escape_from37 s :
  Py37.re_escape s = escaped_except_slashes_on From37 s.
Proof.
  induction s as [|c s IH]; [done|].
  cbn [Py37.re_escape escaped_except_slashes_on]. rewrite IH.
  unfold escape_but_slash_on. by destruct (Ascii.eqb_spec c "/") as [->|_].
Qed.

Lemma clean_source_on_spec v p :
  (v = From37 → Py37.has_char "\" (Py.strip p) = false) →
  clean_source_on v p = escaped_except_slashes_on v (Py.strip p).
Proof.
  destruct v; intros H.
  - rewrite escaped_except_slashes_before37. apply clean_source_spec.
  - rewrite <- re_escape_from37. by apply replace_re_escape37, H.
Qed.

Lemma process_rule_on_source v processing_level idspace t p r d rule :
  rule_types rule = [t] →
  t = "path" ∨ t = "prefix" →
  rule !! t = Some p →
  rule !! "replacement" = Some r →
  process_rule_on v processing_level idspace (YMap rule) = Ok (Some d) →
  ∃ kw,
    d = if (t =? "path")%string
        then directive kw ("(?i)^" +:+ clean_source_on v p +:+ "$") r
        else directive kw ("(?i)^" +:+ clean_source_on v p +:+ "(.*)$")
               (r +:+ "$1").
Proof.
  intros Ht Hpp Hp Hr.
  destruct Hpp as [-> | ->];
    unfold process_rule_on, resolve_on, checked_on, determine_type;
    rewrite Ht; cbn;
    unfold validate_replacement, handle_rule_on, contains, getitem; cbn;
    rewrite Hp, Hr; cbn;
    (destruct (Py.strip r =? "")%string; cbn; [done|]);
    unfold check_idspace; cbn;
    (destruct (Py.startswith _ _); cbn; [|done]);
    rewrite determine_level_eq by done;
    (destruct (rule !! "level");
       [destruct (valid_level _); [|done]|]); cbn;
    intros He%emit_Some; cbn in He; by eexists.
Qed.

(** X24. On either [re.escape], the source emitted for a path or prefix
    rule is the path or prefix with the whitespace at both ends taken off
    and every character of the rest escaped as the release escapes it, but
    the forward slashes; every regular expression metacharacter is among
    the escaped ones.  From Python 3.7 on this holds for the paths and
    prefixes that have no backslash. *)
Theorem sources_on_either_release (v : release)
    (processing_level idspace t p r d : string) (rule : gmap string string) :
  rule_types rule = [t] →
  t = "path" ∨ t = "prefix" →
  rule !! t = Some p →
  rule !! "replacement" = Some r →
  (v = From37 → Py37.has_char "\" (Py.strip p) = false) →
  process_rule_on v processing_level idspace (YMap rule) = Ok (Some d) →
  (∃ w1 w2,
     p = w1 +:+ Py.strip p +:+ w2
     ∧ string_forall Py.isspace w1 = true
     ∧ string_forall Py.isspace w2 = true
     ∧ starts_with_space (Py.strip p) = false
     ∧ ends_with_space (Py.strip p) = false)
  ∧ (∃ kw,
       d = if (t =? "path")%string
           then directive kw
                  ("(?i)^" +:+ escaped_except_slashes_on v (Py.strip p) +:+ "$")
                  r
           else directive kw
                  ("(?i)^" +:+ escaped_except_slashes_on v (Py.strip p)
                   +:+ "(.*)$")
                  (r +:+ "$1"))
  ∧ (∀ c, In c metachars →
       escape_but_slash_on v c = String "\" (String c ""))
  ∧ escape_but_slash_on v "/" = "/".
Proof.
  intros Ht Hpp Hp Hr Hv Hd. split; [apply strip_spec|].
  split; [|split; [|done]].
  - rewrite <- (clean_source_on_spec v p Hv).
    by apply (process_rule_on_source v processing_level idspace t p r d rule).
  - unfold metachars. cbn [list_ascii_of_string In].
    intros c H. destruct v;
      repeat (destruct H as [<-|H]; [reflexivity|]); destruct H.
Qed.

Lemma sources_on_either_release_witness :
  ∃ kw, directive "temp" "(?i)^/obo/obi/x\.y:z$" "foo"
        = directive kw
            ("(?i)^" +:+ escaped_except_slashes_on From37
                           (Py.strip "/obo/obi/x.y:z  ") +:+ "$")
            "foo".
Proof.
  refine (proj1 (proj2 (sources_on_either_release From37 "project" "OBI" "path"
            "/obo/obi/x.y:z  " "foo" _
            {[ "path" := "/obo/obi/x.y:z  "; "replacement" := "foo" ]}
            _ _ _ _ _ _))).
  - vm_compute. reflexivity.
  - left. reflexivity.
  - vm_compute. reflexivity.
  - vm_compute. reflexivity.
  - intros _. vm_compute. reflexivity.
  - vm_compute. reflexivity.
Defined.
